(** * ProteusLib full treatment train: pretreatment builder and costing dispatcher

    A shallow embedding of
    [example_flowsheets/pretreatment.py] and [example_flowsheets/costing.py].

    Both scripts are orchestration code over a process-modelling framework.
    The embedding keeps what the scripts themselves do:
    - the flowsheet [m.fs] is a tree of named components, looked up by
      attribute name ([hasattr], [m.fs.NF.costing.operating_cost]) and
      extended by attribute assignment;
    - every call into the framework (constructors attached to the flowsheet,
      [initialize], [propagate_state], [get_costing], [print], ...) is
      appended to a log, in program order;
    - Python exceptions are results: a raise stops the function and keeps the
      flowsheet and the log as they were at that point.

    Numbers are rationals: the scripts only add, subtract, multiply and divide
    values produced by the solver, and the rendering of a number as text
    ([repr], [round]) is kept as data of the emitted line.  Arithmetic is
    therefore exact; the rounding of floating-point numbers is not part of
    the embedding. *)

From Stdlib Require Import QArith.
From stdpp Require Import gmap strings list fin_maps.

Open Scope string_scope.

(** ** Python exceptions and results *)

Inductive exn :=
  | ValueError
  | NotImplementedError
  | AttributeError
  | KeyError
  | TypeError
  | ZeroDivisionError.

Inductive result (A : Type) :=
  | Ok (a : A)
  | Raise (e : exn).
Arguments Ok {A} a.
Arguments Raise {A} e.

(** Values that travel in [**kwargs]. *)
Inductive pyval :=
  | PStr (s : string)
  | PBool (b : bool).

#[global] Instance exn_eq_dec : EqDecision exn.
Proof. solve_decision. Defined.

#[global] Instance pyval_eq_dec : EqDecision pyval.
Proof. solve_decision. Defined.

(** ** Components of a flowsheet *)

(** A port is named by the unit that owns it and its attribute name on that
    unit: [m.fs.splitter.bypass] is [PortRef "splitter" "bypass"]. *)
Record port_ref := PortRef { port_unit : string; port_name : string }.

#[global] Instance port_ref_eq_dec : EqDecision port_ref.
Proof. solve_decision. Defined.

(** The class a block was built from, with its configuration dictionary. *)
Inductive block_class :=
  | Block
  | Feed (base : string)
  | SepNF (base : string)
  | ZONF (base : string)
  | Separator (property_package : string) (outlet_list : list string)
      (split_basis energy_split_basis : string)
  | Mixer (property_package : string) (inlet_list : list string)
  | UnitModel.

#[global] Instance block_class_eq_dec : EqDecision block_class.
Proof. solve_decision. Defined.

#[warnings="-register-all"]
Inductive comp :=
  | Num (v : Q)                               (* a Var or Param holding the value v *)
  | PortC                                     (* a Port of a unit *)
  | ArcC (source destination : port_ref)      (* Arc(source=, destination=) *)
  | Method                                    (* a bound method of a unit model *)
  | Blk (cls : block_class) (attrs : gmap string comp).

(** A line written to the console.  [Line] is [print(f"{item} = {value(val)}")];
    [Money] is [print(f'{label} = ${round(v, digits)}/m3')]. *)
Inductive line :=
  | Line (label : string) (v : Q)
  | Money (label : string) (digits : nat) (v : Q).

(** Calls into the framework, in the order they are made. *)
Inductive event :=
  | Assign (path : list string) (c : comp)
  | GetProp (base : string)
  | BuildFeed (base : string)
  | BuildSepNF (base : string)
  | BuildZONF (base : string)
  | FixVar (u var : string) (time : Z) (index : string) (v : Q)
  | CalcScaling (u : string)
  | Initialize (u : string) (optarg : list (string * string))
  | Propagate (arc : string) (source destination : port_ref)
  | GetCosting (u module : string) (kw : list (string * string))
  | GetSystemCosting (module : string)
  | Emit (l : line).

(** The model object [m]: its flowsheet [m.fs] and the log of calls. *)
Record model := Model { fs : gmap string comp; log : list event }.

(** ** The state-and-exception monad of a Python function body *)

Definition M (A : Type) : Type := model → result A * model.

#[global] Instance M_ret : MRet M := λ A a m, (Ok a, m).
#[global] Instance M_bind : MBind M := λ A B f c m,
  match c m with
  | (Ok a, m') => f a m'
  | (Raise e, m') => (Raise e, m')
  end.

Definition raise {A} (e : exn) : M A := λ m, (Raise e, m).
Definition call (ev : event) : M unit := λ m, (Ok tt, Model (fs m) (log m ++ [ev])).
Definition lift {A} (r : result A) : M A := λ m, (r, m).
Definition when (b : bool) (c : M unit) : M unit := if b then c else mret tt.

(** [hasattr(m.fs, name)] *)
Definition hasattr (name : string) : M bool :=
  λ m, (Ok (bool_decide (is_Some (fs m !! name))), m).

(** [m.fs.a.b.c]: only blocks carry named attributes. *)
Fixpoint get_path (attrs : gmap string comp) (path : list string) : result comp :=
  match path with
  | [] => Raise AttributeError
  | [a] =>
      match attrs !! a with
      | Some x => Ok x
      | None => Raise AttributeError
      end
  | a :: rest =>
      match attrs !! a with
      | Some (Blk _ sub) => get_path sub rest
      | _ => Raise AttributeError
      end
  end.

Definition rd (path : list string) : M comp := λ m, (get_path (fs m) path, m).

(** [m.fs.a.b.c = obj]: the parent [m.fs.a.b] must be a block. *)
Fixpoint set_path (attrs : gmap string comp) (path : list string) (c : comp)
  : result (gmap string comp) :=
  match path with
  | [] => Raise AttributeError
  | [a] => Ok (<[a := c]> attrs)
  | a :: rest =>
      match attrs !! a with
      | Some (Blk k sub) =>
          match set_path sub rest c with
          | Ok sub' => Ok (<[a := Blk k sub']> attrs)
          | Raise e => Raise e
          end
      | _ => Raise AttributeError
      end
  end.

Definition assign (path : list string) (c : comp) : M unit := λ m,
  match set_path (fs m) path c with
  | Ok fs' => (Ok tt, Model fs' (log m ++ [Assign path c]))
  | Raise e => (Raise e, m)
  end.

(** [m.fs.unit.port] used as a port. *)
Definition port (u name : string) : M port_ref :=
  c ← rd [u; name];
  match c with
  | PortC => mret (PortRef u name)
  | _ => raise TypeError
  end.

(** A framework call on a unit the builder has just attached,
    [m.fs.unit.initialize(...)] or [calculate_scaling_factors(m.fs.unit)]:
    the unit is looked up, the call is logged. *)
Definition on_unit (u : string) (ev : event) : M unit :=
  rd [u];; call ev.

(** ** pretreatment.py *)

(** *** Collaborators of the builder *)

(** Ports of a freshly built unit. *)
Definition ports (names : list string) : gmap string comp :=
  list_to_map ((λ n, (n, PortC)) <$> names).

(** [Separator(default={...})]: one inlet, and one outlet port per entry of
    [outlet_list], under that entry's name. *)
Definition new_Separator (property_package : string) (outlet_list : list string)
    (split_basis energy_split_basis : string) : comp :=
  Blk (Separator property_package outlet_list split_basis energy_split_basis)
      (ports ("inlet" :: outlet_list)).

(** [Mixer(default={...})]: one inlet port per entry of [inlet_list], and one
    outlet. *)
Definition new_Mixer (property_package : string) (inlet_list : list string) : comp :=
  Blk (Mixer property_package inlet_list) (ports ("outlet" :: inlet_list)).

(** Modelled from the spec: [property_models.get_prop] is not part of the
    two source files.  "Resolve the property package for the requested
    chemistry basis": the call is logged and the package is named by its
    basis. *)
Definition get_prop (base : string) : M string :=
  call (GetProp base);; mret base.

(** Modelled from the spec: [feed_block.build_feed] is not part of the two
    source files.  "Build a feed source": a block [m.fs.feed] with an
    [outlet] port. *)
Definition build_feed (base : string) : M unit := λ m,
  (Ok tt, Model (<["feed" := Blk (Feed base) (ports ["outlet"])]> (fs m))
                (log m ++ [BuildFeed base])).

(** Modelled from the spec: [unit_separator.build_SepNF] is not part of the
    two source files.  "Build ... a nanofiltration unit per the requested
    variant": a block [m.fs.NF] with ports [inlet], [permeate], [retentate]. *)
Definition build_SepNF (base : string) : M unit := λ m,
  (Ok tt, Model (<["NF" := Blk (SepNF base) (ports ["inlet"; "permeate"; "retentate"])]> (fs m))
                (log m ++ [BuildSepNF base])).

(** Modelled from the spec: [unit_ZONF.build_ZONF] is not part of the two
    source files; as [build_SepNF], for the zero-order variant. *)
Definition build_ZONF (base : string) : M unit := λ m,
  (Ok tt, Model (<["NF" := Blk (ZONF base) (ports ["inlet"; "permeate"; "retentate"])]> (fs m))
                (log m ++ [BuildZONF base])).

(** [m.fs.name = Arc(source=m.fs.su.sp, destination=m.fs.du.dp)] *)
Definition declare_arc (name su sp du dp : string) : M unit :=
  s ← port su sp;
  d ← port du dp;
  assign [name] (ArcC s d).

(** [m.fs.u.split_fraction[time, outlet].fix(v)]: the variable is indexed by
    the flowsheet's single time point 0 and the separator's outlets. *)
Definition fix_split_fraction (u : string) (time : Z) (outlet : string) (v : Q) : M unit :=
  c ← rd [u];
  match c with
  | Blk (Separator _ outlet_list _ _) _ =>
      if bool_decide (time = 0%Z ∧ outlet ∈ outlet_list)
      then call (FixVar u "split_fraction" time outlet v)
      else raise KeyError
  | _ => raise AttributeError
  end.

(** [calculate_scaling_factors(m.fs.u)] *)
Definition calculate_scaling_factors (u : string) : M unit :=
  on_unit u (CalcScaling u).

(** [m.fs.u.initialize(optarg=optarg)] *)
Definition initialize (u : string) (optarg : list (string * string)) : M unit :=
  on_unit u (Initialize u optarg).

(** [propagate_state(m.fs.arc)] *)
Definition propagate_state (arc : string) : M unit :=
  c ← rd [arc];
  match c with
  | ArcC s d => call (Propagate arc s d)
  | _ => raise TypeError
  end.

(** *** [build_pretreatment_NF(m, has_bypass, NF_type, NF_base)] *)

(** [{'nlp_scaling_method': 'user-scaling'}] *)
Definition user_scaling : list (string * string) :=
  [("nlp_scaling_method", "user-scaling")].

Definition build_pretreatment_NF (has_bypass : bool) (NF_type NF_base : string)
  : M (gmap string port_ref) :=
  let pretrt_port : gmap string port_ref := ∅ in
  let optarg := user_scaling in
  prop ← get_prop NF_base;
  (* build feed *)
  build_feed NF_base;;
  (* build NF *)
  (if bool_decide (NF_type = "Sep") then build_SepNF NF_base
   else if bool_decide (NF_type = "ZO") then build_ZONF NF_base
   else raise ValueError);;
  if has_bypass then
    (* build auxiliary units *)
    assign ["splitter"]
      (new_Separator prop ["pretreatment"; "bypass"] "totalFlow" "equal_temperature");;
    assign ["mixer"] (new_Mixer prop ["pretreatment"; "bypass"]);;
    (* connect models *)
    declare_arc "s_pretrt_feed_splitter" "feed" "outlet" "splitter" "inlet";;
    declare_arc "s_pretrt_splitter_mixer" "splitter" "bypass" "mixer" "bypass";;
    declare_arc "s_pretrt_splitter_NF" "splitter" "pretreatment" "NF" "inlet";;
    declare_arc "s_pretrt_NF_mixer" "NF" "permeate" "mixer" "pretreatment";;
    (* specify: splitter has 1 DOF *)
    fix_split_fraction "splitter" 0 "bypass" 0.1;;
    (* scaling *)
    calculate_scaling_factors "splitter";;
    calculate_scaling_factors "mixer";;
    (* initialize *)
    initialize "feed" optarg;;
    propagate_state "s_pretrt_feed_splitter";;
    initialize "splitter" optarg;;
    propagate_state "s_pretrt_splitter_mixer";;
    propagate_state "s_pretrt_splitter_NF";;
    when (negb (bool_decide (NF_type = "Sep"))) (initialize "NF" optarg);;
    propagate_state "s_pretrt_NF_mixer";;
    initialize "mixer" optarg;;
    (* inlet/outlet ports for pretreatment *)
    out ← port "mixer" "outlet";
    let pretrt_port := <["out" := out]> pretrt_port in
    waste ← port "NF" "retentate";
    let pretrt_port := <["waste" := waste]> pretrt_port in
    mret pretrt_port
  else
    (* connect models *)
    declare_arc "s_pretrt_feed_NF" "feed" "outlet" "NF" "inlet";;
    (* initialize *)
    initialize "feed" optarg;;
    propagate_state "s_pretrt_feed_NF";;
    when (negb (bool_decide (NF_type = "Sep"))) (initialize "NF" optarg);;
    (* inlet/outlet ports for pretreatment *)
    out ← port "NF" "permeate";
    let pretrt_port := <["out" := out]> pretrt_port in
    waste ← port "NF" "retentate";
    let pretrt_port := <["waste" := waste]> pretrt_port in
    mret pretrt_port.

(** *** What a run of the builder did, read off the log *)

(** Arcs declared on the flowsheet: [m.fs.name = Arc(...)]. *)
Definition declared_arcs (evs : list event) : list (string * port_ref * port_ref) :=
  omap (λ e, match e with
             | Assign [name] (ArcC s d) => Some (name, s, d)
             | _ => None
             end) evs.

(** Unit blocks built and attached by the function itself. *)
Definition built_units (evs : list event) : list string :=
  omap (λ e, match e with
             | Assign [name] (Blk _ _) => Some name
             | _ => None
             end) evs.

(** Variables fixed: unit, variable, index, value. *)
Definition fixed_vars (evs : list event) : list (string * string * Z * string * Q) :=
  omap (λ e, match e with
             | FixVar u var t i v => Some (u, var, t, i, v)
             | _ => None
             end) evs.

(** The initialization sequence: the [initialize] and [propagate_state] calls,
    in order. *)
Definition init_sequence (evs : list event) : list event :=
  omap (λ e, match e with
             | Initialize _ _ | Propagate _ _ _ => Some e
             | _ => None
             end) evs.

(** The arcs whose state was propagated at a point where their source unit
    had not been initialized; [seen] are the units initialized so far. *)
Fixpoint unprimed (seen : list string) (evs : list event) : list string :=
  match evs with
  | [] => []
  | Initialize u _ :: rest => unprimed (u :: seen) rest
  | Propagate arc s _ :: rest =>
      if bool_decide (port_unit s ∈ seen) then unprimed seen rest
      else arc :: unprimed seen rest
  | _ :: rest => unprimed seen rest
  end.

(** The nanofiltration block and the logged builder call, per variant. *)
Definition NF_block (NF_type base : string) : comp :=
  Blk (if bool_decide (NF_type = "Sep") then SepNF base else ZONF base)
      (ports ["inlet"; "permeate"; "retentate"]).

Definition NF_built (NF_type base : string) : event :=
  if bool_decide (NF_type = "Sep") then BuildSepNF base else BuildZONF base.

Definition arc (su sp du dp : string) : comp :=
  ArcC (PortRef su sp) (PortRef du dp).

(** The flowsheet after a run with bypass. *)
Definition bypass_flowsheet (NF_type base : string) (f : gmap string comp)
  : gmap string comp :=
  <["s_pretrt_NF_mixer" := arc "NF" "permeate" "mixer" "pretreatment"]>
  (<["s_pretrt_splitter_NF" := arc "splitter" "pretreatment" "NF" "inlet"]>
  (<["s_pretrt_splitter_mixer" := arc "splitter" "bypass" "mixer" "bypass"]>
  (<["s_pretrt_feed_splitter" := arc "feed" "outlet" "splitter" "inlet"]>
  (<["mixer" := new_Mixer base ["pretreatment"; "bypass"]]>
  (<["splitter" := new_Separator base ["pretreatment"; "bypass"]
                     "totalFlow" "equal_temperature"]>
  (<["NF" := NF_block NF_type base]>
  (<["feed" := Blk (Feed base) (ports ["outlet"])]> f))))))).

(** The calls of a run with bypass. *)
Definition bypass_events (NF_type base : string) : list event :=
  [ GetProp base; BuildFeed base; NF_built NF_type base;
    Assign ["splitter"] (new_Separator base ["pretreatment"; "bypass"]
                           "totalFlow" "equal_temperature");
    Assign ["mixer"] (new_Mixer base ["pretreatment"; "bypass"]);
    Assign ["s_pretrt_feed_splitter"] (arc "feed" "outlet" "splitter" "inlet");
    Assign ["s_pretrt_splitter_mixer"] (arc "splitter" "bypass" "mixer" "bypass");
    Assign ["s_pretrt_splitter_NF"] (arc "splitter" "pretreatment" "NF" "inlet");
    Assign ["s_pretrt_NF_mixer"] (arc "NF" "permeate" "mixer" "pretreatment");
    FixVar "splitter" "split_fraction" 0 "bypass" 0.1;
    CalcScaling "splitter"; CalcScaling "mixer";
    Initialize "feed" user_scaling;
    Propagate "s_pretrt_feed_splitter" (PortRef "feed" "outlet") (PortRef "splitter" "inlet");
    Initialize "splitter" user_scaling;
    Propagate "s_pretrt_splitter_mixer" (PortRef "splitter" "bypass") (PortRef "mixer" "bypass");
    Propagate "s_pretrt_splitter_NF" (PortRef "splitter" "pretreatment") (PortRef "NF" "inlet") ]
  ++ (if bool_decide (NF_type = "Sep") then [] else [Initialize "NF" user_scaling])
  ++ [ Propagate "s_pretrt_NF_mixer" (PortRef "NF" "permeate") (PortRef "mixer" "pretreatment");
       Initialize "mixer" user_scaling ].

(** The flowsheet and the calls of a run without bypass. *)
Definition direct_flowsheet (NF_type base : string) (f : gmap string comp)
  : gmap string comp :=
  <["s_pretrt_feed_NF" := arc "feed" "outlet" "NF" "inlet"]>
  (<["NF" := NF_block NF_type base]>
  (<["feed" := Blk (Feed base) (ports ["outlet"])]> f)).

Definition direct_events (NF_type base : string) : list event :=
  [ GetProp base; BuildFeed base; NF_built NF_type base;
    Assign ["s_pretrt_feed_NF"] (arc "feed" "outlet" "NF" "inlet");
    Initialize "feed" user_scaling;
    Propagate "s_pretrt_feed_NF" (PortRef "feed" "outlet") (PortRef "NF" "inlet") ]
  ++ (if bool_decide (NF_type = "Sep") then [] else [Initialize "NF" user_scaling]).

(** A model with an empty flowsheet and no call made yet. *)
Definition fresh : model := Model ∅ [].

(** ** costing.py *)

(** *** [build_costing(m, module=financials, **kwargs)] *)

(** [kwargs[key]] *)
Definition kwarg (kwargs : gmap string pyval) (key : string) : M pyval :=
  match kwargs !! key with
  | Some v => mret v
  | None => raise KeyError
  end.

(** [m.fs.u.get_costing(module=module, **kw)]: the attribute [get_costing] is
    looked up on the unit, then called.  A unit without that attribute, such
    as the bare [Block()] that [display_costing] attaches for a missing unit,
    raises [AttributeError]; an attribute that is not a method cannot be
    called. *)
Definition get_costing (u module : string) (kw : list (string * string)) : M unit :=
  method ← rd [u; "get_costing"];
  match method with
  | Method => call (GetCosting u module kw)
  | _ => raise TypeError
  end.

(** The section under [# Nanofiltration]. *)
Definition costing_NF (module : string) (kwargs : gmap string pyval) : M unit :=
  present ← hasattr "NF";
  if (present : bool) then
    t ← kwarg kwargs "NF_type";
    if bool_decide (t = PStr "ZO") then get_costing "NF" module []
    else
      t ← kwarg kwargs "NF_type";
      if bool_decide (t = PStr "Sep") then raise NotImplementedError
      else mret tt
  else mret tt.

(** The section under [# Reverse Osmosis]. *)
Definition costing_RO (module : string) (kwargs : gmap string pyval) : M unit :=
  present ← hasattr "RO";
  if (present : bool) then
    t ← kwarg kwargs "RO_type";
    if bool_decide (t = PStr "0D") then get_costing "RO" module []
    else
      t ← kwarg kwargs "RO_type";
      if bool_decide (t = PStr "Sep") then raise NotImplementedError
      else mret tt
  else mret tt.

(** [if hasattr(m.fs, u): m.fs.u.get_costing(module=module, **kw)] *)
Definition costing_if_present (u module : string) (kw : list (string * string)) : M unit :=
  present ← hasattr u;
  when present (get_costing u module kw).

Definition build_costing (module : string) (kwargs : gmap string pyval) : M unit :=
  (* Nanofiltration *)
  costing_NF module kwargs;;
  (* Reverse Osmosis *)
  costing_RO module kwargs;;
  (* Pump *)
  costing_if_present "pump_RO" module [("pump_type", "High pressure")];;
  (* Stage 2 pump *)
  costing_if_present "pump_RO2" module [("pump_type", "High pressure")];;
  (* Stage 2 RO *)
  costing_if_present "RO2" module [];;
  (* Pretreatment *)
  costing_if_present "stoich_softening_mixer_unit" module [("mixer_type", "lime_softening")];;
  costing_if_present "ideal_naocl_mixer_unit" module [("mixer_type", "naocl_mixer")];;
  (* call get_system_costing for whole flowsheet *)
  call (GetSystemCosting module).

(** *** [display_costing(m, **kwargs)] *)

(** Symbolic expressions, as built by arithmetic on components. *)
Inductive expr :=
  | EVal (q : Q)
  | EAdd (a b : expr)
  | ESub (a b : expr)
  | EMul (a b : expr)
  | EDiv (a b : expr).

(** What a Python name can hold while the report is assembled: a component
    read off the flowsheet, or an expression over components. *)
Inductive operand :=
  | OComp (c : comp)
  | OExpr (e : expr).

(** Arithmetic accepts numeric components and expressions only.  The result
    is an expression: nothing is computed until [value] is applied to it.
    (The framework folds a parameter that cannot change into the expression
    as a constant when the expression is built; the values are the same, only
    a constant zero divisor is then found earlier.) *)
Definition as_numeric (o : operand) : result expr :=
  match o with
  | OExpr e => Ok e
  | OComp (Num q) => Ok (EVal q)
  | OComp _ => Raise TypeError
  end.

Definition binop (op : expr → expr → expr) (x y : operand) : M operand :=
  a ← lift (as_numeric x);
  b ← lift (as_numeric y);
  mret (OExpr (op a b)).

(** Division of two numbers. *)
Definition div (x y : Q) : result Q :=
  if Qeq_bool y 0 then Raise ZeroDivisionError else Ok (x / y)%Q.

Fixpoint eval (e : expr) : result Q :=
  match e with
  | EVal q => Ok q
  | EAdd a b =>
      match eval a, eval b with
      | Ok x, Ok y => Ok (x + y)%Q
      | Raise e, _ | _, Raise e => Raise e
      end
  | ESub a b =>
      match eval a, eval b with
      | Ok x, Ok y => Ok (x - y)%Q
      | Raise e, _ | _, Raise e => Raise e
      end
  | EMul a b =>
      match eval a, eval b with
      | Ok x, Ok y => Ok (x * y)%Q
      | Raise e, _ | _, Raise e => Raise e
      end
  | EDiv a b =>
      match eval a, eval b with
      | Ok x, Ok y => div x y
      | Raise e, _ | _, Raise e => Raise e
      end
  end.

(** [value(val)] *)
Definition value (o : operand) : result Q :=
  match o with
  | OComp (Num q) => Ok q
  | OComp _ => Raise TypeError
  | OExpr e => eval e
  end.

(** [c.value]: a Var or Param carries a value; a block, a port, an arc or a
    method has no attribute of that name. *)
Definition dot_value (c : comp) : result Q :=
  match c with
  | Num q => Ok q
  | _ => Raise AttributeError
  end.

(** The "temporary fix" for a unit missing from the flowsheet:
[[
    if not hasattr(m.fs, u):
        m.fs.u = Block()
        m.fs.u.costing = Block()
        m.fs.u.costing.operating_cost = Param(initialize=0)
]] *)
Definition backfill (u : string) : M unit :=
  present ← hasattr u;
  when (negb present)
    (assign [u] (Blk Block ∅);;
     assign [u; "costing"] (Blk Block ∅);;
     assign [u; "costing"; "operating_cost"] (Num 0)).

(** An attribute chain [m.fs.a.b.c] used as an operand. *)
Definition rdo (path : list string) : M operand :=
  c ← rd path; mret (OComp c).

(** The dictionary literal [cost_dict = {...}], entries in source order. *)
Definition cost_dict (crf : comp) : M (list (string * operand)) :=
  let crf := OComp crf in
  lcow ← rdo ["costing"; "LCOW"];
  (* Total CAPEX *)
  a ← rdo ["costing"; "investment_cost_total"];
  a ← binop EMul a crf;
  b ← rdo ["annual_water_production"];
  total_capex ← binop EDiv a b;
  (* Direct CAPEX *)
  a ← rdo ["costing"; "capital_cost_total"];
  a ← binop EMul a crf;
  b ← rdo ["annual_water_production"];
  direct_capex ← binop EDiv a b;
  (* Indirect CAPEX *)
  a ← rdo ["costing"; "investment_cost_total"];
  b ← rdo ["costing"; "capital_cost_total"];
  a ← binop ESub a b;
  a ← binop EMul a crf;
  b ← rdo ["annual_water_production"];
  indirect_capex ← binop EDiv a b;
  (* Total OPEX *)
  a ← rdo ["costing"; "operating_cost_total"];
  b ← rdo ["annual_water_production"];
  total_opex ← binop EDiv a b;
  mlc ← rdo ["costing"; "operating_cost_MLC"];
  (* Total Electricity Cost *)
  a ← rdo ["pump_RO"; "costing"; "operating_cost"];
  b ← rdo ["pump_RO2"; "costing"; "operating_cost"];
  a ← binop EAdd a b;
  b ← rdo ["annual_water_production"];
  electricity ← binop EDiv a b;
  (* Stage 1 / Stage 2 HP Pump Electricity Cost *)
  a ← rdo ["pump_RO"; "costing"; "operating_cost"];
  b ← rdo ["annual_water_production"];
  pump1 ← binop EDiv a b;
  a ← rdo ["pump_RO2"; "costing"; "operating_cost"];
  b ← rdo ["annual_water_production"];
  pump2 ← binop EDiv a b;
  (* Total Membrane Replacement Cost *)
  a ← rdo ["NF"; "costing"; "operating_cost"];
  b ← rdo ["RO"; "costing"; "operating_cost"];
  a ← binop EAdd a b;
  b ← rdo ["RO2"; "costing"; "operating_cost"];
  a ← binop EAdd a b;
  b ← rdo ["annual_water_production"];
  membrane ← binop EDiv a b;
  (* NF / Stage 1 RO / Stage 2 RO Membrane Replacement Cost *)
  a ← rdo ["NF"; "costing"; "operating_cost"];
  b ← rdo ["annual_water_production"];
  nf ← binop EDiv a b;
  a ← rdo ["RO"; "costing"; "operating_cost"];
  b ← rdo ["annual_water_production"];
  ro1 ← binop EDiv a b;
  a ← rdo ["RO2"; "costing"; "operating_cost"];
  b ← rdo ["annual_water_production"];
  ro2 ← binop EDiv a b;
  mret [("LCOW", lcow);
        ("Total CAPEX", total_capex);
        ("Direct CAPEX", direct_capex);
        ("Indirect CAPEX", indirect_capex);
        ("Total OPEX", total_opex);
        ("Maintenance/Labor/Chemical Costs", mlc);
        ("Total Electricity Cost", electricity);
        ("Stage 1 HP Pump Electricity Cost", pump1);
        ("Stage 2 HP Pump Electricity Cost", pump2);
        ("Total Membrane Replacement Cost", membrane);
        ("NF Membrane Replacement Cost", nf);
        ("Stage 1 RO Membrane Replacement Cost", ro1);
        ("Stage 2 RO Membrane Replacement Cost", ro2)].

(** [for item, val in cost_dict.items(): print(f"{item} = {value(val)}")] *)
Fixpoint print_items (items : list (string * operand)) : M unit :=
  match items with
  | [] => mret tt
  | (item, val) :: rest =>
      v ← lift (value val);
      call (Emit (Line item v));;
      print_items rest
  end.

(** [m.fs.u.costing.attr.value / value(m.fs.annual_water_production)] *)
Definition specific (u attr : string) : M Q :=
  c ← rd [u; "costing"; attr];
  x ← lift (dot_value c);
  awp ← rd ["annual_water_production"];
  y ← lift (value (OComp awp));
  lift (div x y).

(** The two lines of a pretreatment or post-treatment mixer. *)
Definition mixer_report (u label : string) (crf : comp) : M unit :=
  present ← hasattr u;
  when present
    (x ← specific u "capital_cost";
     k ← lift (dot_value crf);
     let spec_capex := (x * k)%Q in
     spec_opex ← specific u "operating_cost";
     call (Emit (Money (label ++ " specific CAPEX") 5 spec_capex));;
     call (Emit (Money (label ++ " specific OPEX") 5 spec_opex))).

(** The report proper: the dictionary, the loop over its items, and the
    specially formatted lines that follow. *)
Definition report (crf : comp) : M unit :=
  cost_dict ← cost_dict crf;
  print_items cost_dict;;
  c ← rd ["costing"; "LCOW"];
  lcow ← lift (dot_value c);
  call (Emit (Money "LCOW" 5 lcow));;
  present ← hasattr "pump_RO";
  when present
    (pump_RO_spec_opex ← specific "pump_RO" "operating_cost";
     call (Emit (Money "RO Pump 1 specific Opex" 3 pump_RO_spec_opex)));;
  present ← hasattr "pump_RO2";
  when present
    (pump_RO2_spec_opex ← specific "pump_RO2" "operating_cost";
     call (Emit (Money "RO Pump 2 specific Opex" 3 pump_RO2_spec_opex)));;
  mixer_report "stoich_softening_mixer_unit" "Lime Softening" crf;;
  mixer_report "ideal_naocl_mixer_unit" "Chlorination" crf.

Definition display_costing : M unit :=
  crf ← rd ["costing_param"; "factor_capital_annualization"];
  backfill "pump_RO2";;
  backfill "NF";;
  backfill "RO2";;
  report crf.

(** *** What a run of the dispatcher did, read off the log *)

(** Units whose [get_costing] was called. *)
Definition costed_units (evs : list event) : list string :=
  omap (λ e, match e with
             | GetCosting u _ _ => Some u
             | _ => None
             end) evs.

(** Calls of the system-level aggregator. *)
Definition system_costing_calls (evs : list event) : list string :=
  omap (λ e, match e with
             | GetSystemCosting module => Some module
             | _ => None
             end) evs.

(** Lines written to the console. *)
Definition emitted (evs : list event) : list line :=
  omap (λ e, match e with
             | Emit l => Some l
             | _ => None
             end) evs.

(** The unit [u] is on the flowsheet and its selector [key] holds a value that
    is neither the costed variant [known] nor ['Sep']. *)
Definition unknown_variant (f : gmap string comp) (kwargs : gmap string pyval)
    (u key known : string) : Prop :=
  is_Some (f !! u) ∧
  ∃ v, kwargs !! key = Some v ∧ v ≠ PStr known ∧ v ≠ PStr "Sep".

(** The selector of unit [u] does not make its section raise: the unit is
    absent, or its selector [key] is given and is not ['Sep']. *)
Definition section_passes (f : gmap string comp) (kwargs : gmap string pyval)
    (u key : string) : Prop :=
  f !! u = None ∨ ∃ v, kwargs !! key = Some v ∧ v ≠ PStr "Sep".

(** The lookup of [get_costing] on the unit [u]: the exception it ends in, if
    any. *)
Definition get_costing_error (f : gmap string comp) (u : string) : option exn :=
  match get_path f [u; "get_costing"] with
  | Ok Method => None
  | Ok _ => Some TypeError
  | Raise e => Some e
  end.

(** The unit [u] has a [get_costing] method. *)
Definition costable (f : gmap string comp) (u : string) : Prop :=
  get_path f [u; "get_costing"] = Ok Method.

(** The exception, if any, raised by the section of the unit [u] with selector
    [key] and costed variant [known]: the selector is read only when the unit
    is there, the method is looked up only for the costed variant. *)
Definition section_error (f : gmap string comp) (kwargs : gmap string pyval)
    (u key known : string) : option exn :=
  if bool_decide (is_Some (f !! u)) then
    match kwargs !! key with
    | None => Some KeyError
    | Some v =>
        if bool_decide (v = PStr known) then get_costing_error f u
        else if bool_decide (v = PStr "Sep") then Some NotImplementedError
        else None
    end
  else None.

(** The exception, if any, raised by the section of a unit without
    variants. *)
Definition present_error (f : gmap string comp) (u : string) : option exn :=
  if bool_decide (is_Some (f !! u)) then get_costing_error f u else None.

(** The call made by the section of a unit with variants, when it does not
    raise. *)
Definition variant_events (module : string) (f : gmap string comp)
    (kwargs : gmap string pyval) (u key known : string) : list event :=
  if bool_decide (is_Some (f !! u) ∧ kwargs !! key = Some (PStr known))
  then [GetCosting u module []] else [].

(** The call made for a unit without variants, when it does not raise. *)
Definition present_events (module : string) (f : gmap string comp)
    (u : string) (kw : list (string * string)) : list event :=
  if bool_decide (is_Some (f !! u)) then [GetCosting u module kw] else [].

(** The per-unit calls of a run of the dispatcher that does not raise. *)
Definition unit_costing_events (module : string) (f : gmap string comp)
    (kwargs : gmap string pyval) : list event :=
  variant_events module f kwargs "NF" "NF_type" "ZO"
  ++ variant_events module f kwargs "RO" "RO_type" "0D"
  ++ present_events module f "pump_RO" [("pump_type", "High pressure")]
  ++ present_events module f "pump_RO2" [("pump_type", "High pressure")]
  ++ present_events module f "RO2" []
  ++ present_events module f "stoich_softening_mixer_unit" [("mixer_type", "lime_softening")]
  ++ present_events module f "ideal_naocl_mixer_unit" [("mixer_type", "naocl_mixer")].

(** The sections of the dispatcher in source order, each with the exception
    it raises on the flowsheet [f], if any, and the calls it makes otherwise;
    the call of the system-level aggregator closes the list. *)
Definition sections (module : string) (f : gmap string comp)
    (kwargs : gmap string pyval) : list (option exn * list event) :=
  [ (section_error f kwargs "NF" "NF_type" "ZO",
     variant_events module f kwargs "NF" "NF_type" "ZO");
    (section_error f kwargs "RO" "RO_type" "0D",
     variant_events module f kwargs "RO" "RO_type" "0D");
    (present_error f "pump_RO",
     present_events module f "pump_RO" [("pump_type", "High pressure")]);
    (present_error f "pump_RO2",
     present_events module f "pump_RO2" [("pump_type", "High pressure")]);
    (present_error f "RO2", present_events module f "RO2" []);
    (present_error f "stoich_softening_mixer_unit",
     present_events module f "stoich_softening_mixer_unit"
       [("mixer_type", "lime_softening")]);
    (present_error f "ideal_naocl_mixer_unit",
     present_events module f "ideal_naocl_mixer_unit" [("mixer_type", "naocl_mixer")]);
    (None, [GetSystemCosting module]) ].

(** A run of sections stops at the first one that raises: the exception, if
    any, and the calls made up to there. *)
Fixpoint run_sections (ss : list (option exn * list event)) : option exn * list event :=
  match ss with
  | [] => (None, [])
  | (Some e, _) :: _ => (Some e, [])
  | (None, evs) :: rest =>
      let r := run_sections rest in (r.1, (evs ++ r.2)%list)
  end.

(** The model and the result after a run of sections on the model [m]. *)
Definition dispatched (r : option exn * list event) (m : model) : result unit * model :=
  (from_option Raise (Ok ()) r.1, Model (fs m) (log m ++ r.2)%list).

(** The exception of the first section that raises, if any does. *)
Definition dispatch_error (f : gmap string comp) (kwargs : gmap string pyval)
  : option exn :=
  head (omap id
    [ section_error f kwargs "NF" "NF_type" "ZO";
      section_error f kwargs "RO" "RO_type" "0D";
      present_error f "pump_RO";
      present_error f "pump_RO2";
      present_error f "RO2";
      present_error f "stoich_softening_mixer_unit";
      present_error f "ideal_naocl_mixer_unit" ]).

(** *** What the report does to the flowsheet, and what it prints *)

(** The zero-cost stand-in attached for a missing unit. *)
Definition placeholder : comp :=
  Blk Block (<["costing" := Blk Block (<["operating_cost" := Num 0]> ∅)]> ∅).

Definition backfill_events (u : string) : list event :=
  [ Assign [u] (Blk Block ∅);
    Assign [u; "costing"] (Blk Block ∅);
    Assign [u; "costing"; "operating_cost"] (Num 0) ].

(** The flowsheet with [u] backfilled if it was absent. *)
Definition backfilled (u : string) (f : gmap string comp) : gmap string comp :=
  if bool_decide (is_Some (f !! u)) then f else <[u := placeholder]> f.

Definition backfilled_events (u : string) (f : gmap string comp) : list event :=
  if bool_decide (is_Some (f !! u)) then [] else backfill_events u.

Definition backfill_all (f : gmap string comp) : gmap string comp :=
  backfilled "RO2" (backfilled "NF" (backfilled "pump_RO2" f)).

(** The numbers the report reads from a flowsheet whose first stage is
    costed. *)
Record readings := Readings {
  crf : Q;
  LCOW : Q;
  investment_cost_total : Q;
  capital_cost_total : Q;
  operating_cost_total : Q;
  operating_cost_MLC : Q;
  annual_water_production : Q;
  pump_RO_operating_cost : Q;
  RO_operating_cost : Q
}.

Definition stage1_costed (f : gmap string comp) (k : readings) : Prop :=
  get_path f ["costing_param"; "factor_capital_annualization"] = Ok (Num (crf k)) ∧
  get_path f ["costing"; "LCOW"] = Ok (Num (LCOW k)) ∧
  get_path f ["costing"; "investment_cost_total"] = Ok (Num (investment_cost_total k)) ∧
  get_path f ["costing"; "capital_cost_total"] = Ok (Num (capital_cost_total k)) ∧
  get_path f ["costing"; "operating_cost_total"] = Ok (Num (operating_cost_total k)) ∧
  get_path f ["costing"; "operating_cost_MLC"] = Ok (Num (operating_cost_MLC k)) ∧
  get_path f ["annual_water_production"] = Ok (Num (annual_water_production k)) ∧
  get_path f ["pump_RO"; "costing"; "operating_cost"] = Ok (Num (pump_RO_operating_cost k)) ∧
  get_path f ["RO"; "costing"; "operating_cost"] = Ok (Num (RO_operating_cost k)).

(** An optional mixer: absent, or costed with capital and operating cost. *)
Definition mixer_state (f : gmap string comp) (u : string) (c : option (Q * Q)) : Prop :=
  match c with
  | None => f !! u = None
  | Some (capital, operating) =>
      get_path f [u; "costing"; "capital_cost"] = Ok (Num capital) ∧
      get_path f [u; "costing"; "operating_cost"] = Ok (Num operating)
  end.

Definition mixer_lines (label : string) (k : readings) (c : option (Q * Q)) : list line :=
  match c with
  | None => []
  | Some (capital, operating) =>
      [ Money (label +:+ " specific CAPEX") 5
          (capital / annual_water_production k * crf k)%Q;
        Money (label +:+ " specific OPEX") 5
          (operating / annual_water_production k)%Q ]
  end.

(** The fixed layout of the report when the second-stage pump, the
    second-stage reverse osmosis and the nanofiltration are the backfilled
    stand-ins: each of their contributions is the literal 0. *)
Definition report_lines (k : readings) : list line :=
  let awp := annual_water_production k in
  [ Line "LCOW" (LCOW k);
    Line "Total CAPEX" (investment_cost_total k * crf k / awp)%Q;
    Line "Direct CAPEX" (capital_cost_total k * crf k / awp)%Q;
    Line "Indirect CAPEX"
      ((investment_cost_total k - capital_cost_total k) * crf k / awp)%Q;
    Line "Total OPEX" (operating_cost_total k / awp)%Q;
    Line "Maintenance/Labor/Chemical Costs" (operating_cost_MLC k);
    Line "Total Electricity Cost" ((pump_RO_operating_cost k + 0) / awp)%Q;
    Line "Stage 1 HP Pump Electricity Cost" (pump_RO_operating_cost k / awp)%Q;
    Line "Stage 2 HP Pump Electricity Cost" (0 / awp)%Q;
    Line "Total Membrane Replacement Cost" ((0 + RO_operating_cost k + 0) / awp)%Q;
    Line "NF Membrane Replacement Cost" (0 / awp)%Q;
    Line "Stage 1 RO Membrane Replacement Cost" (RO_operating_cost k / awp)%Q;
    Line "Stage 2 RO Membrane Replacement Cost" (0 / awp)%Q;
    Money "LCOW" 5 (LCOW k);
    Money "RO Pump 1 specific Opex" 3 (pump_RO_operating_cost k / awp)%Q;
    Money "RO Pump 2 specific Opex" 3 (0 / awp)%Q ].

(** A computation that leaves the flowsheet as it found it. *)
Definition keeps_fs {A} (c : M A) : Prop := ∀ m, fs (c m).2 = fs m.




(** A costed unit block, with its [get_costing] method and the costing block
    the method attached, and a single-stage flowsheet after costing and
    solve: no nanofiltration, no second stage, no mixers. *)
Definition costed_unit (operating_cost capital_cost : Q) : comp :=
  Blk UnitModel
    (<["get_costing" := Method]>
     (<["costing" := Blk Block (<["operating_cost" := Num operating_cost]>
                                (<["capital_cost" := Num capital_cost]> ∅))]> ∅)).

Definition single_stage_readings : readings :=
  Readings 0.1 0.5 200 100 30 3 1000 20 10.

Definition single_stage : model :=
  Model
    (<["costing_param" := Blk Block (<["factor_capital_annualization" := Num 0.1]> ∅)]>
     (<["costing" := Blk Block
          (<["LCOW" := Num 0.5]>
           (<["investment_cost_total" := Num 200]>
            (<["capital_cost_total" := Num 100]>
             (<["operating_cost_total" := Num 30]>
              (<["operating_cost_MLC" := Num 3]> ∅)))))]>
      (<["annual_water_production" := Num 1000]>
       (<["pump_RO" := costed_unit 20 70]>
        (<["RO" := costed_unit 10 50]> ∅)))))
    [].

(** ** Further observations on the three functions *)

(** *** pretreatment.py *)

(** The variant strings the builder accepts. *)
Definition recognized (NF_type : string) : bool :=
  bool_decide (NF_type = "ZO" ∨ NF_type = "Sep").

(** The two ports a run that completes hands back, and their mapping. *)
Definition product_port (has_bypass : bool) : port_ref :=
  if has_bypass then PortRef "mixer" "outlet" else PortRef "NF" "permeate".

Definition waste_port : port_ref := PortRef "NF" "retentate".

Definition returned_ports (has_bypass : bool) : gmap string port_ref :=
  <["waste" := waste_port]> (<["out" := product_port has_bypass]> ∅).

(** The units of the network. *)
Definition network_units (has_bypass : bool) : list string :=
  if has_bypass then ["feed"; "splitter"; "NF"; "mixer"] else ["feed"; "NF"].

(** The attributes of [m.fs] a run may assign. *)
Definition builder_names (has_bypass : bool) : list string :=
  (["feed"; "NF"] ++
   if has_bypass
   then ["splitter"; "mixer"; "s_pretrt_feed_splitter"; "s_pretrt_splitter_mixer";
         "s_pretrt_splitter_NF"; "s_pretrt_NF_mixer"]
   else ["s_pretrt_feed_NF"])%list.

(** The calls of a run that completes. *)
Definition builder_events (has_bypass : bool) (NF_type base : string) : list event :=
  if has_bypass then bypass_events NF_type base else direct_events NF_type base.

(** The stage of the builder a call belongs to: construction and wiring,
    specification, scaling, initialization; 4 for calls the builder has no
    business making. *)
Definition phase (e : event) : nat :=
  match e with
  | GetProp _ | BuildFeed _ | BuildSepNF _ | BuildZONF _ | Assign _ _ => 0
  | FixVar _ _ _ _ _ => 1
  | CalcScaling _ => 2
  | Initialize _ _ | Propagate _ _ _ => 3
  | GetCosting _ _ _ | GetSystemCosting _ | Emit _ => 4
  end.

Fixpoint nondecreasing (l : list nat) : bool :=
  match l with
  | a :: (b :: _) as rest => (a <=? b)%nat && nondecreasing rest
  | _ => true
  end.

(** Units on which [calculate_scaling_factors] was called. *)
Definition scaled_units (evs : list event) : list string :=
  omap (λ e, match e with
             | CalcScaling u => Some u
             | _ => None
             end) evs.

(** The [initialize] calls of a log: unit and solver options. *)
Definition initializations (evs : list event) : list (string * list (string * string)) :=
  omap (λ e, match e with
             | Initialize u optarg => Some (u, optarg)
             | _ => None
             end) evs.

(** Source and destination ports of a list of declared arcs. *)
Definition arc_sources (arcs : list (string * port_ref * port_ref)) : list port_ref :=
  (λ a, a.1.2) <$> arcs.

Definition arc_destinations (arcs : list (string * port_ref * port_ref)) : list port_ref :=
  (λ a, a.2) <$> arcs.

(** An arc declared on the flowsheet whose two ends are ports of the
    flowsheet. *)
Definition connected (f : gmap string comp) (a : string * port_ref * port_ref) : Prop :=
  f !! a.1.1 = Some (ArcC a.1.2 a.2) ∧
  get_path f [port_unit a.1.2; port_name a.1.2] = Ok PortC ∧
  get_path f [port_unit a.2; port_name a.2] = Ok PortC.

(** *** [solve_build_pretreatment_NF(has_bypass, NF_type, NF_base)] *)

Section Driver.
(** [property_models.build_prop], [TransformationFactory("network.expand_arcs")
    .apply_to], [check_dof] and [solve_with_user_scaling] are not part of the
    two source files.  Nothing is assumed about them: what they do to the
    model, and whether they return or raise, is left open. *)
Variable build_prop : string → M unit.
Variable expand_arcs : M unit.
Variable check_dof : M unit.
Variable solve_with_user_scaling : bool → bool → M unit.

(** The body of the driver, run on the model it creates:
[[
    m = ConcreteModel()
    m.fs = FlowsheetBlock(default={"dynamic": False})
]] *)
Definition solve_build_pretreatment_NF (has_bypass : bool) (NF_type NF_base : string)
  : result unit * model :=
  (build_prop NF_base;;
   build_pretreatment_NF has_bypass NF_type NF_base;;
   expand_arcs;;
   check_dof;;
   solve_with_user_scaling true true) fresh.
End Driver.

(** *** costing.py: the dispatcher *)

(** The units the dispatcher knows, in the order of their sections, each with
    the keyword arguments of its [get_costing] call. *)
Definition costing_table : list (string * list (string * string)) :=
  [ ("NF", []);
    ("RO", []);
    ("pump_RO", [("pump_type", "High pressure")]);
    ("pump_RO2", [("pump_type", "High pressure")]);
    ("RO2", []);
    ("stoich_softening_mixer_unit", [("mixer_type", "lime_softening")]);
    ("ideal_naocl_mixer_unit", [("mixer_type", "naocl_mixer")]) ].

(** The unit [u] is on the flowsheet and, when it has variants, its selector
    names the costed one. *)
Definition selected (f : gmap string comp) (kwargs : gmap string pyval)
    (u : string) : bool :=
  bool_decide (is_Some (f !! u)) &&
  (if bool_decide (u = "NF") then bool_decide (kwargs !! "NF_type" = Some (PStr "ZO"))
   else if bool_decide (u = "RO") then bool_decide (kwargs !! "RO_type" = Some (PStr "0D"))
   else true).

(** The [get_costing] calls of a log: unit, module, keyword arguments. *)
Definition costing_calls (evs : list event)
  : list (string * string * list (string * string)) :=
  omap (λ e, match e with
             | GetCosting u module kw => Some (u, module, kw)
             | _ => None
             end) evs.

(** *** costing.py: the report *)

(** The lines of a report on a flowsheet where all five units carry an
    operating cost. *)
Definition full_report (k : readings) (p2 nf r2 : Q) : list line :=
  let awp := annual_water_production k in
  [ Line "LCOW" (LCOW k);
    Line "Total CAPEX" (investment_cost_total k * crf k / awp)%Q;
    Line "Direct CAPEX" (capital_cost_total k * crf k / awp)%Q;
    Line "Indirect CAPEX"
      ((investment_cost_total k - capital_cost_total k) * crf k / awp)%Q;
    Line "Total OPEX" (operating_cost_total k / awp)%Q;
    Line "Maintenance/Labor/Chemical Costs" (operating_cost_MLC k);
    Line "Total Electricity Cost" ((pump_RO_operating_cost k + p2) / awp)%Q;
    Line "Stage 1 HP Pump Electricity Cost" (pump_RO_operating_cost k / awp)%Q;
    Line "Stage 2 HP Pump Electricity Cost" (p2 / awp)%Q;
    Line "Total Membrane Replacement Cost" ((nf + RO_operating_cost k + r2) / awp)%Q;
    Line "NF Membrane Replacement Cost" (nf / awp)%Q;
    Line "Stage 1 RO Membrane Replacement Cost" (RO_operating_cost k / awp)%Q;
    Line "Stage 2 RO Membrane Replacement Cost" (r2 / awp)%Q;
    Money "LCOW" 5 (LCOW k);
    Money "RO Pump 1 specific Opex" 3 (pump_RO_operating_cost k / awp)%Q;
    Money "RO Pump 2 specific Opex" 3 (p2 / awp)%Q ].

(** The flowsheet carries an operating cost for the second-stage pump, the
    nanofiltration and the second-stage reverse osmosis. *)
Definition optional_costed (f : gmap string comp) (p2 nf r2 : Q) : Prop :=
  get_path f ["pump_RO2"; "costing"; "operating_cost"] = Ok (Num p2) ∧
  get_path f ["NF"; "costing"; "operating_cost"] = Ok (Num nf) ∧
  get_path f ["RO2"; "costing"; "operating_cost"] = Ok (Num r2).

(** A two-stage flowsheet after costing and solve, with nanofiltration and a
    chlorination mixer. *)
Definition two_stage : model :=
  Model (<["pump_RO2" := costed_unit 5 40]>
         (<["NF" := costed_unit 2 30]>
          (<["RO2" := costed_unit 4 20]>
           (<["ideal_naocl_mixer_unit" := costed_unit 6 8]> (fs single_stage)))))
        [].

(** The backfill events of a run, for the three names in source order. *)
Definition backfill_all_events (f : gmap string comp) : list event :=
  (backfilled_events "pump_RO2" f
   ++ backfilled_events "NF" (backfilled "pump_RO2" f)
   ++ backfilled_events "RO2" (backfilled "NF" (backfilled "pump_RO2" f)))%list.

(** A computation whose calls all satisfy [ok]. *)
Definition calls_only {A} (ok : event → bool) (c : M A) : Prop :=
  ∀ m, ∃ evs, log (c m).2 = (log m ++ evs)%list ∧ forallb ok evs = true.

Definition is_assign_or_emit (e : event) : bool :=
  match e with
  | Assign _ _ | Emit _ => true
  | _ => false
  end.

Definition is_costing_call (e : event) : bool :=
  match e with
  | GetCosting _ _ _ | GetSystemCosting _ => true
  | _ => false
  end.

Definition is_builder_call (e : event) : bool :=
  (phase e <? 4)%nat.

(** * Running a function body step by step *)

Open Scope list_scope.

Lemma bind_ok {A B} (c : M A) (f : A → M B) m a m' :
  c m = (Ok a, m') → (c ≫= f) m = f a m'.
Proof. intros H. unfold mbind, M_bind. by rewrite H. Qed.

Lemma bind_raise {A B} (c : M A) (f : A → M B) m e m' :
  c m = (Raise e, m') → (c ≫= f) m = (Raise e, m').
Proof. intros H. unfold mbind, M_bind. by rewrite H. Qed.

Lemma ret_bind {A B} (a : A) (f : A → M B) m : (mret a ≫= f) m = f a m.
Proof. reflexivity. Qed.

Lemma rd_top u c m : fs m !! u = Some c → rd [u] m = (Ok c, m).
Proof. intros H. unfold rd. cbn. by rewrite H. Qed.

Lemma on_unit_run u ev c m :
  fs m !! u = Some c → on_unit u ev m = (Ok (), Model (fs m) (log m ++ [ev])).
Proof. intros H. unfold on_unit. by rewrite (bind_ok _ _ _ _ _ (rd_top _ _ _ H)). Qed.

Lemma port_run u p m :
  get_path (fs m) [u; p] = Ok PortC → port u p m = (Ok (PortRef u p), m).
Proof.
  intros H. unfold port.
  erewrite bind_ok; [|unfold rd; by rewrite H]. done.
Qed.

Lemma declare_arc_run name su sp du dp m :
  get_path (fs m) [su; sp] = Ok PortC →
  get_path (fs m) [du; dp] = Ok PortC →
  declare_arc name su sp du dp m =
    (Ok (), Model (<[name := arc su sp du dp]> (fs m))
                  (log m ++ [Assign [name] (arc su sp du dp)])).
Proof.
  intros Hs Hd. unfold declare_arc.
  rewrite (bind_ok _ _ _ _ _ (port_run _ _ _ Hs)).
  by rewrite (bind_ok _ _ _ _ _ (port_run _ _ _ Hd)).
Qed.

Lemma propagate_state_run a s d m :
  fs m !! a = Some (ArcC s d) →
  propagate_state a m = (Ok (), Model (fs m) (log m ++ [Propagate a s d])).
Proof.
  intros H. unfold propagate_state.
  by rewrite (bind_ok _ _ _ _ _ (rd_top _ _ _ H)).
Qed.

Lemma fix_split_fraction_run u outlet v pp outs sb eb attrs m :
  fs m !! u = Some (Blk (Separator pp outs sb eb) attrs) → outlet ∈ outs →
  fix_split_fraction u 0 outlet v m =
    (Ok (), Model (fs m) (log m ++ [FixVar u "split_fraction" 0 outlet v])).
Proof.
  intros H Hin. unfold fix_split_fraction.
  rewrite (bind_ok _ _ _ _ _ (rd_top _ _ _ H)).
  by rewrite bool_decide_eq_true_2.
Qed.

(** Lookups in a flowsheet given by the assignments made so far. *)
Ltac lookups :=
  cbn [fs log get_path];
  repeat first [ rewrite lookup_insert_eq | rewrite lookup_insert_ne by done ];
  try reflexivity.

(** One statement of the body: [lem] is the run lemma of the statement. *)
Ltac step lem :=
  erewrite bind_ok;
  [ | solve [ eapply lem; lookups; first [ eassumption | by repeat constructor ] ] ];
  cbn [fs log].

(** ** pretreatment.py *)

Lemma build_NF_run NF_type base m :
  NF_type = "ZO" ∨ NF_type = "Sep" →
  (if bool_decide (NF_type = "Sep") then build_SepNF base
   else if bool_decide (NF_type = "ZO") then build_ZONF base
   else raise ValueError) m =
  (Ok (), Model (<["NF" := NF_block NF_type base]> (fs m))
                (log m ++ [NF_built NF_type base])).
Proof. by intros [-> | ->]. Qed.

Lemma init_NF_run NF_type c m :
  fs m !! "NF" = Some c →
  when (negb (bool_decide (NF_type = "Sep"))) (initialize "NF" user_scaling) m =
  (Ok (), Model (fs m)
     (log m ++ if bool_decide (NF_type = "Sep") then []
               else [Initialize "NF" user_scaling])).
Proof.
  intros H. case_bool_decide; cbn.
  - rewrite app_nil_r. by destruct m.
  - by eapply on_unit_run.
Qed.

(** A run with bypass, for either recognized variant. *)
Lemma build_bypass_run NF_type base m :
  NF_type = "ZO" ∨ NF_type = "Sep" →
  build_pretreatment_NF true NF_type base m =
    (Ok (<["waste" := PortRef "NF" "retentate"]>
           (<["out" := PortRef "mixer" "outlet"]> ∅)),
     Model (bypass_flowsheet NF_type base (fs m))
           (log m ++ bypass_events NF_type base)).
Proof.
  intros Hv. unfold build_pretreatment_NF.
  erewrite bind_ok; [|reflexivity]. cbn [fs log].
  erewrite bind_ok; [|reflexivity]. cbn [fs log].
  erewrite bind_ok; [|by apply build_NF_run]. cbn [fs log].
  erewrite bind_ok; [|reflexivity]. cbn [fs log].
  erewrite bind_ok; [|reflexivity]. cbn [fs log].
  do 4 step declare_arc_run.
  step fix_split_fraction_run.
  do 2 step on_unit_run.
  step on_unit_run. step propagate_state_run.
  step on_unit_run. do 2 step propagate_state_run.
  step init_NF_run. step propagate_state_run. step on_unit_run.
  do 2 step port_run.
  unfold mret, M_ret, bypass_flowsheet, bypass_events.
  by rewrite <- !app_assoc.
Qed.

(** A run without bypass, for either recognized variant. *)
Lemma build_direct_run NF_type base m :
  NF_type = "ZO" ∨ NF_type = "Sep" →
  build_pretreatment_NF false NF_type base m =
    (Ok (<["waste" := PortRef "NF" "retentate"]>
           (<["out" := PortRef "NF" "permeate"]> ∅)),
     Model (direct_flowsheet NF_type base (fs m))
           (log m ++ direct_events NF_type base)).
Proof.
  intros Hv. unfold build_pretreatment_NF.
  erewrite bind_ok; [|reflexivity]. cbn [fs log].
  erewrite bind_ok; [|reflexivity]. cbn [fs log].
  erewrite bind_ok; [|by apply build_NF_run]. cbn [fs log].
  step declare_arc_run.
  step on_unit_run. step propagate_state_run.
  step init_NF_run.
  do 2 step port_run.
  unfold mret, M_ret, direct_flowsheet, direct_events.
  by rewrite <- !app_assoc.
Qed.

(** An unrecognized variant: the feed is built, then the builder raises. *)
Lemma build_invalid_run has_bypass NF_type base m :
  NF_type ≠ "ZO" → NF_type ≠ "Sep" →
  build_pretreatment_NF has_bypass NF_type base m =
    (Raise ValueError,
     Model (<["feed" := Blk (Feed base) (ports ["outlet"])]> (fs m))
           (log m ++ [GetProp base; BuildFeed base])).
Proof.
  intros Hzo Hsep. unfold build_pretreatment_NF.
  erewrite bind_ok; [|reflexivity]. cbn [fs log].
  erewrite bind_ok; [|reflexivity]. cbn [fs log].
  erewrite bind_raise; [|by rewrite !bool_decide_eq_false_2].
  by rewrite <- app_assoc.
Qed.

(** C1 as stated fails: with the unrecognized variant ['RO'] on a fresh
    model, [ValueError] is raised, but only after the property package has
    been resolved and the feed block has been built and attached. *)
Lemma invalid_variant_raises_after_feed :
  let '(r, m') := build_pretreatment_NF true "RO" "ion" fresh in
  r = Raise ValueError ∧
  log m' = [GetProp "ion"; BuildFeed "ion"] ∧
  is_Some (fs m' !! "feed") ∧
  m' ≠ fresh.
Proof.
  rewrite build_invalid_run by done. cbn [fs log fresh app].
  split_and!; [done | done | by rewrite lookup_insert_eq | by intros [=]].
Qed.

(** C1 (amended): for every variant string other than ['ZO'] and ['Sep'],
    with or without bypass, [build_pretreatment_NF] raises [ValueError] once
    the property package is resolved and the feed is built, and before
    anything else: no nanofiltration unit, splitter, mixer or arc is built,
    nothing is fixed, scaled or initialized. *)
Theorem invalid_variant_raises has_bypass NF_type NF_base m :
  NF_type ≠ "ZO" → NF_type ≠ "Sep" →
  build_pretreatment_NF has_bypass NF_type NF_base m =
    (Raise ValueError,
     Model (<["feed" := Blk (Feed NF_base) (ports ["outlet"])]> (fs m))
           (log m ++ [GetProp NF_base; BuildFeed NF_base])).
Proof. apply build_invalid_run. Qed.

Lemma invalid_variant_raises_witness :
  "RO" ≠ "ZO" ∧ "RO" ≠ "Sep" ∧
  build_pretreatment_NF false "RO" "salt" fresh =
    (Raise ValueError,
     Model (<["feed" := Blk (Feed "salt") (ports ["outlet"])]> (fs fresh))
           (log fresh ++ [GetProp "salt"; BuildFeed "salt"])).
Proof.
  split; [done | split; [done |]].
  apply (invalid_variant_raises false "RO" "salt" fresh); done.
Defined.

(** C3 as stated fails for the idealized separator: the initialization of the
    nanofiltration unit is skipped, so the state of the arc from the
    nanofiltration permeate to the mixer is propagated although its source
    unit was never initialized by the builder. *)
Lemma sep_variant_propagates_from_uninitialized_NF :
  let m' := (build_pretreatment_NF true "Sep" "ion" fresh).2 in
  unprimed [] (log m') = ["s_pretrt_NF_mixer"].
Proof. by rewrite build_bypass_run by auto. Qed.

(** C3 (amended): with bypass, the initialization sequence is: feed, the
    feed-to-splitter arc, splitter, both downstream splitter arcs,
    nanofiltration (skipped exactly for ['Sep']), the nanofiltration-to-mixer
    arc, mixer.  For ['ZO'] every arc is propagated after its source unit was
    initialized; for ['Sep'] this holds for every arc except the
    nanofiltration-to-mixer arc, whose source is never initialized. *)
Theorem bypass_initialization_order NF_type NF_base m :
  NF_type = "ZO" ∨ NF_type = "Sep" →
  ∃ pretrt_port m' evs,
    build_pretreatment_NF true NF_type NF_base m = (Ok pretrt_port, m') ∧
    log m' = log m ++ evs ∧
    init_sequence evs =
      [ Initialize "feed" user_scaling;
        Propagate "s_pretrt_feed_splitter" (PortRef "feed" "outlet") (PortRef "splitter" "inlet");
        Initialize "splitter" user_scaling;
        Propagate "s_pretrt_splitter_mixer" (PortRef "splitter" "bypass") (PortRef "mixer" "bypass");
        Propagate "s_pretrt_splitter_NF" (PortRef "splitter" "pretreatment") (PortRef "NF" "inlet") ]
      ++ (if bool_decide (NF_type = "Sep") then [] else [Initialize "NF" user_scaling])
      ++ [ Propagate "s_pretrt_NF_mixer" (PortRef "NF" "permeate") (PortRef "mixer" "pretreatment");
           Initialize "mixer" user_scaling ] ∧
    unprimed [] evs =
      if bool_decide (NF_type = "Sep") then ["s_pretrt_NF_mixer"] else [].
Proof.
  intros Hv. eexists _, _, _. split; [by apply build_bypass_run|].
  split; [done|]. by destruct Hv as [-> | ->].
Qed.

Lemma bypass_initialization_order_witness :
  ("ZO" = "ZO" ∨ "ZO" = "Sep") ∧
  ∃ pretrt_port m' evs,
    build_pretreatment_NF true "ZO" "ion" fresh = (Ok pretrt_port, m') ∧
    log m' = log fresh ++ evs ∧
    init_sequence evs =
      [ Initialize "feed" user_scaling;
        Propagate "s_pretrt_feed_splitter" (PortRef "feed" "outlet") (PortRef "splitter" "inlet");
        Initialize "splitter" user_scaling;
        Propagate "s_pretrt_splitter_mixer" (PortRef "splitter" "bypass") (PortRef "mixer" "bypass");
        Propagate "s_pretrt_splitter_NF" (PortRef "splitter" "pretreatment") (PortRef "NF" "inlet") ]
      ++ (if bool_decide ("ZO" = "Sep") then [] else [Initialize "NF" user_scaling])
      ++ [ Propagate "s_pretrt_NF_mixer" (PortRef "NF" "permeate") (PortRef "mixer" "pretreatment");
           Initialize "mixer" user_scaling ] ∧
    unprimed [] evs = if bool_decide ("ZO" = "Sep") then ["s_pretrt_NF_mixer"] else [].
Proof.
  split; [by left|].
  apply (bypass_initialization_order "ZO" "ion" fresh). by left.
Defined.

(** C4: bypass enabled, zero-order nanofiltration, ion basis.  Exactly four
    arcs are declared (feed to splitter, splitter bypass to mixer, splitter
    pretreatment to nanofiltration, nanofiltration permeate to mixer) and
    exactly two auxiliary units are built (splitter, mixer).  All of them are
    on the flowsheet afterwards, each arc joining two ports that exist there,
    and the flowsheet is the one the call started from with the feed, the
    nanofiltration unit, these two units and these four arcs attached, and
    nothing else.  The splitter's bypass split fraction is fixed at 0.1 and
    nothing else is fixed, and the product port returned is the outlet port
    of the mixer on the flowsheet. *)
Theorem bypass_ZO_ion_scenario m :
  ∃ pretrt_port m' evs,
    build_pretreatment_NF true "ZO" "ion" m = (Ok pretrt_port, m') ∧
    log m' = log m ++ evs ∧
    declared_arcs evs =
      [ ("s_pretrt_feed_splitter", PortRef "feed" "outlet", PortRef "splitter" "inlet");
        ("s_pretrt_splitter_mixer", PortRef "splitter" "bypass", PortRef "mixer" "bypass");
        ("s_pretrt_splitter_NF", PortRef "splitter" "pretreatment", PortRef "NF" "inlet");
        ("s_pretrt_NF_mixer", PortRef "NF" "permeate", PortRef "mixer" "pretreatment") ] ∧
    Forall (connected (fs m')) (declared_arcs evs) ∧
    built_units evs = ["splitter"; "mixer"] ∧
    fs m' !! "splitter" =
      Some (new_Separator "ion" ["pretreatment"; "bypass"] "totalFlow" "equal_temperature") ∧
    fs m' !! "mixer" = Some (new_Mixer "ion" ["pretreatment"; "bypass"]) ∧
    fs m' =
      <["s_pretrt_NF_mixer" := arc "NF" "permeate" "mixer" "pretreatment"]>
      (<["s_pretrt_splitter_NF" := arc "splitter" "pretreatment" "NF" "inlet"]>
      (<["s_pretrt_splitter_mixer" := arc "splitter" "bypass" "mixer" "bypass"]>
      (<["s_pretrt_feed_splitter" := arc "feed" "outlet" "splitter" "inlet"]>
      (<["mixer" := new_Mixer "ion" ["pretreatment"; "bypass"]]>
      (<["splitter" := new_Separator "ion" ["pretreatment"; "bypass"]
                         "totalFlow" "equal_temperature"]>
      (<["NF" := Blk (ZONF "ion") (ports ["inlet"; "permeate"; "retentate"])]>
      (<["feed" := Blk (Feed "ion") (ports ["outlet"])]> (fs m)))))))) ∧
    fixed_vars evs = [("splitter", "split_fraction", 0%Z, "bypass", 0.1%Q)] ∧
    pretrt_port !! "out" = Some (PortRef "mixer" "outlet") ∧
    get_path (fs m') ["mixer"; "outlet"] = Ok PortC.
Proof.
  eexists _, _, _. split; [apply build_bypass_run; by left|].
  cbn [fs log]. split; [done|]. split; [done|]. split.
  { unfold bypass_flowsheet. cbn.
    repeat (apply Forall_cons; split;
            [unfold connected; cbn [fst snd port_unit port_name];
             split_and!; lookups|]).
    by apply Forall_nil. }
  unfold bypass_flowsheet.
  split_and!; try done; lookups.
Qed.

(** C5: bypass disabled, either recognized variant, any basis, on a flowsheet
    that has no splitter and no mixer.  Exactly one arc is declared (feed to
    nanofiltration); it is on the flowsheet afterwards and joins the feed
    outlet and the nanofiltration inlet that exist there.  No auxiliary unit
    is built: the flowsheet is the one the call started from with the feed,
    the nanofiltration unit and this arc attached, and it still has no
    splitter and no mixer.  No variable is fixed, and the product port
    returned is the permeate port of the nanofiltration unit on the
    flowsheet. *)
Theorem no_bypass_scenario NF_type NF_base m :
  NF_type = "ZO" ∨ NF_type = "Sep" →
  fs m !! "splitter" = None → fs m !! "mixer" = None →
  ∃ pretrt_port m' evs,
    build_pretreatment_NF false NF_type NF_base m = (Ok pretrt_port, m') ∧
    log m' = log m ++ evs ∧
    declared_arcs evs =
      [ ("s_pretrt_feed_NF", PortRef "feed" "outlet", PortRef "NF" "inlet") ] ∧
    Forall (connected (fs m')) (declared_arcs evs) ∧
    built_units evs = [] ∧
    fs m' =
      <["s_pretrt_feed_NF" := arc "feed" "outlet" "NF" "inlet"]>
      (<["NF" := NF_block NF_type NF_base]>
      (<["feed" := Blk (Feed NF_base) (ports ["outlet"])]> (fs m))) ∧
    fs m' !! "splitter" = None ∧ fs m' !! "mixer" = None ∧
    fixed_vars evs = [] ∧
    pretrt_port !! "out" = Some (PortRef "NF" "permeate") ∧
    get_path (fs m') ["NF"; "permeate"] = Ok PortC.
Proof.
  intros Hv Hs Hm. eexists _, _, _. split; [by apply build_direct_run|].
  cbn [fs log]. unfold direct_flowsheet.
  rewrite !lookup_insert_ne by done.
  assert (declared_arcs (direct_events NF_type NF_base) =
          [("s_pretrt_feed_NF", PortRef "feed" "outlet", PortRef "NF" "inlet")]) as Harcs
    by (by destruct Hv as [-> | ->]).
  rewrite Harcs.
  split_and!; try done.
  - apply Forall_cons; split; [|by apply Forall_nil].
    unfold connected, NF_block. cbn [fst snd port_unit port_name].
    split_and!; lookups.
  - by destruct Hv as [-> | ->].
  - by destruct Hv as [-> | ->].
  - unfold NF_block. lookups.
Qed.

Lemma no_bypass_scenario_witness :
  ("Sep" = "ZO" ∨ "Sep" = "Sep") ∧
  fs fresh !! "splitter" = None ∧ fs fresh !! "mixer" = None ∧
  ∃ pretrt_port m' evs,
    build_pretreatment_NF false "Sep" "salt" fresh = (Ok pretrt_port, m') ∧
    log m' = log fresh ++ evs ∧
    declared_arcs evs =
      [ ("s_pretrt_feed_NF", PortRef "feed" "outlet", PortRef "NF" "inlet") ] ∧
    Forall (connected (fs m')) (declared_arcs evs) ∧
    built_units evs = [] ∧
    fs m' =
      <["s_pretrt_feed_NF" := arc "feed" "outlet" "NF" "inlet"]>
      (<["NF" := NF_block "Sep" "salt"]>
      (<["feed" := Blk (Feed "salt") (ports ["outlet"])]> (fs fresh))) ∧
    fs m' !! "splitter" = None ∧ fs m' !! "mixer" = None ∧
    fixed_vars evs = [] ∧
    pretrt_port !! "out" = Some (PortRef "NF" "permeate") ∧
    get_path (fs m') ["NF"; "permeate"] = Ok PortC.
Proof.
  split; [by right|]. split; [done|]. split; [done|].
  apply (no_bypass_scenario "Sep" "salt" fresh); [by right | done | done].
Defined.

(** C6 as stated fails: the mapping returned with bypass has no entry named
    ["product"]; the product port is stored under the key ["out"]. *)
Lemma bypass_ports_have_no_product_key :
  ∃ pretrt_port,
    (build_pretreatment_NF true "ZO" "ion" fresh).1 = Ok pretrt_port ∧
    pretrt_port !! "product" = None ∧
    dom pretrt_port ≠ ({["product"; "waste"]} : gset string).
Proof.
  rewrite build_bypass_run by auto. eexists. split; [done|]. split; [done|].
  intros H. assert ("product" ∈ dom (<["waste" := PortRef "NF" "retentate"]>
    (<["out" := PortRef "mixer" "outlet"]> (∅ : gmap string port_ref)))) as Hin
    by (rewrite H; set_solver).
  apply elem_of_dom in Hin. by destruct Hin.
Qed.

(** C6 (amended): for every configuration with bypass enabled (either
    recognized variant, any basis), the mapping returned has exactly two
    entries, named ["out"] and ["waste"]; ["out"] is the mixer outlet and
    ["waste"] is the nanofiltration retentate, whatever the variant. *)
Theorem bypass_ports NF_type NF_base m :
  NF_type = "ZO" ∨ NF_type = "Sep" →
  ∃ pretrt_port m',
    build_pretreatment_NF true NF_type NF_base m = (Ok pretrt_port, m') ∧
    dom pretrt_port = ({["out"; "waste"]} : gset string) ∧
    size pretrt_port = 2 ∧
    pretrt_port !! "out" = Some (PortRef "mixer" "outlet") ∧
    pretrt_port !! "waste" = Some (PortRef "NF" "retentate").
Proof.
  intros Hv. eexists _, _. split; [by apply build_bypass_run|].
  by split_and!.
Qed.

Lemma bypass_ports_witness :
  ("Sep" = "ZO" ∨ "Sep" = "Sep") ∧
  ∃ pretrt_port m',
    build_pretreatment_NF true "Sep" "ion" fresh = (Ok pretrt_port, m') ∧
    dom pretrt_port = ({["out"; "waste"]} : gset string) ∧
    size pretrt_port = 2 ∧
    pretrt_port !! "out" = Some (PortRef "mixer" "outlet") ∧
    pretrt_port !! "waste" = Some (PortRef "NF" "retentate").
Proof.
  split; [by right|].
  apply (bypass_ports "Sep" "ion" fresh). by right.
Defined.

(** ** costing.py: the dispatcher *)

Lemma model_eta m : Model (fs m) (log m ++ []) = m.
Proof. destruct m. cbn. by rewrite app_nil_r. Qed.

Lemma hasattr_run u m :
  hasattr u m = (Ok (bool_decide (is_Some (fs m !! u))), m).
Proof. reflexivity. Qed.

Lemma get_costing_error_None f u : get_costing_error f u = None ↔ costable f u.
Proof.
  unfold get_costing_error, costable.
  destruct (get_path f [u; "get_costing"]) as [[]|]; split; congruence.
Qed.

(** The method call: the lookup fails, or the call is made. *)
Lemma get_costing_run u module kw m :
  get_costing u module kw m =
    match get_costing_error (fs m) u with
    | Some e => (Raise e, m)
    | None => (Ok (), Model (fs m) (log m ++ [GetCosting u module kw]))
    end.
Proof.
  unfold get_costing, get_costing_error, mbind, M_bind, rd.
  by destruct (get_path (fs m) [u; "get_costing"]) as [[]|].
Qed.

(** A section without variants. *)
Lemma costing_if_present_run u module kw m :
  costing_if_present u module kw m =
    match present_error (fs m) u with
    | Some e => (Raise e, m)
    | None => (Ok (), Model (fs m) (log m ++ present_events module (fs m) u kw))
    end.
Proof.
  unfold costing_if_present, present_error, present_events.
  rewrite (bind_ok _ _ _ _ _ (hasattr_run u m)).
  case_bool_decide as Hu; cbn [when].
  - apply get_costing_run.
  - cbn. by rewrite model_eta.
Qed.

(** A section with variants. *)
Lemma costing_variant_run (present_then : pyval → M unit) module kwargs u key known m :
  (∀ v,
    present_then v =
      if bool_decide (v = PStr known) then get_costing u module []
      else
        t ← kwarg kwargs key;
        if bool_decide (t = PStr "Sep") then raise NotImplementedError
        else mret ()) →
  (present ← hasattr u;
   if (present : bool) then kwarg kwargs key ≫= present_then else mret ()) m =
    match section_error (fs m) kwargs u key known with
    | Some e => (Raise e, m)
    | None =>
        (Ok (), Model (fs m)
                  (log m ++ variant_events module (fs m) kwargs u key known))
    end.
Proof.
  intros Hthen. unfold section_error, variant_events.
  rewrite (bind_ok _ _ _ _ _ (hasattr_run u m)).
  case_bool_decide as Hu; cycle 1.
  { rewrite bool_decide_eq_false_2 by tauto. cbn. by rewrite model_eta. }
  unfold kwarg at 1. destruct (kwargs !! key) as [v|] eqn:Hk; [|done].
  rewrite ret_bind, Hthen.
  case_bool_decide as Hv.
  - subst v. rewrite get_costing_run.
    destruct (get_costing_error (fs m) u); [done|].
    by rewrite bool_decide_eq_true_2.
  - unfold kwarg. rewrite Hk, ret_bind.
    rewrite (bool_decide_eq_false_2 (_ ∧ _)) by (intros [_ [=]]; done).
    case_bool_decide; [done|]. cbn. by rewrite model_eta.
Qed.

Lemma costing_NF_run module kwargs m :
  costing_NF module kwargs m =
    match section_error (fs m) kwargs "NF" "NF_type" "ZO" with
    | Some e => (Raise e, m)
    | None =>
        (Ok (), Model (fs m)
                  (log m ++ variant_events module (fs m) kwargs "NF" "NF_type" "ZO"))
    end.
Proof. unfold costing_NF. by apply costing_variant_run. Qed.

Lemma costing_RO_run module kwargs m :
  costing_RO module kwargs m =
    match section_error (fs m) kwargs "RO" "RO_type" "0D" with
    | Some e => (Raise e, m)
    | None =>
        (Ok (), Model (fs m)
                  (log m ++ variant_events module (fs m) kwargs "RO" "RO_type" "0D"))
    end.
Proof. unfold costing_RO. by apply costing_variant_run. Qed.

(** One more section in front of a run of sections. *)
Lemma run_cons (c k : M unit) err evs rest m :
  c m = match err with
        | Some e => (Raise e, m)
        | None => (Ok (), Model (fs m) (log m ++ evs))
        end →
  (∀ l, k (Model (fs m) l) = dispatched (run_sections rest) (Model (fs m) l)) →
  (c ≫= λ _, k) m = dispatched (run_sections ((err, evs) :: rest)) m.
Proof.
  intros Hc Hk. unfold mbind, M_bind. rewrite Hc.
  destruct err as [e|]; cbn [run_sections].
  - unfold dispatched. cbn. by rewrite model_eta.
  - rewrite Hk. unfold dispatched. cbn [fst snd fs log]. by rewrite app_assoc.
Qed.

(** Every run of the dispatcher: the sections in source order, up to the
    first that raises. *)
Lemma build_costing_cases module kwargs m :
  build_costing module kwargs m =
    dispatched (run_sections (sections module (fs m) kwargs)) m.
Proof.
  unfold build_costing, sections.
  apply run_cons; [apply costing_NF_run | intros ?].
  apply run_cons; [exact (costing_RO_run module kwargs _) | intros ?; cbn [fs]].
  do 5 (apply run_cons;
        [exact (costing_if_present_run _ module _ _) | intros ?; cbn [fs]]).
  reflexivity.
Qed.

(** The exception of a run is that of the first section that raises. *)
Lemma run_sections_error module f kwargs :
  (run_sections (sections module f kwargs)).1 = dispatch_error f kwargs.
Proof.
  unfold sections, dispatch_error. cbn [run_sections].
  destruct (section_error f kwargs "NF" "NF_type" "ZO"); [done|].
  destruct (section_error f kwargs "RO" "RO_type" "0D"); [done|].
  destruct (present_error f "pump_RO"); [done|].
  destruct (present_error f "pump_RO2"); [done|].
  destruct (present_error f "RO2"); [done|].
  destruct (present_error f "stoich_softening_mixer_unit"); [done|].
  by destruct (present_error f "ideal_naocl_mixer_unit").
Qed.

Lemma dispatch_error_None f kwargs :
  dispatch_error f kwargs = None ↔
  section_error f kwargs "NF" "NF_type" "ZO" = None ∧
  section_error f kwargs "RO" "RO_type" "0D" = None ∧
  present_error f "pump_RO" = None ∧
  present_error f "pump_RO2" = None ∧
  present_error f "RO2" = None ∧
  present_error f "stoich_softening_mixer_unit" = None ∧
  present_error f "ideal_naocl_mixer_unit" = None.
Proof.
  unfold dispatch_error.
  destruct (section_error f kwargs "NF" "NF_type" "ZO"); [by split; [|intros [? _]]|].
  destruct (section_error f kwargs "RO" "RO_type" "0D"); [by split; [|intros (_ & ? & _)]|].
  destruct (present_error f "pump_RO"); [by split; [|intros (_ & _ & ? & _)]|].
  destruct (present_error f "pump_RO2"); [by split; [|intros (_ & _ & _ & ? & _)]|].
  destruct (present_error f "RO2"); [by split; [|intros (_ & _ & _ & _ & ? & _)]|].
  destruct (present_error f "stoich_softening_mixer_unit");
    [by split; [|intros (_ & _ & _ & _ & _ & ? & _)]|].
  destruct (present_error f "ideal_naocl_mixer_unit");
    [by split; [|intros (_ & _ & _ & _ & _ & _ & ?)]|].
  done.
Qed.

(** The calls of a run in which no section raises. *)
Lemma run_sections_events module f kwargs :
  dispatch_error f kwargs = None →
  (run_sections (sections module f kwargs)).2 =
    unit_costing_events module f kwargs ++ [GetSystemCosting module].
Proof.
  intros (H1 & H2 & H3 & H4 & H5 & H6 & H7)%dispatch_error_None.
  unfold sections, unit_costing_events. cbn [run_sections].
  rewrite H1, H2, H3, H4, H5, H6, H7. cbn [fst snd].
  by rewrite app_nil_r, <- !app_assoc.
Qed.

(** A run of the dispatcher in which no section raises. *)
Lemma build_costing_run module kwargs m :
  dispatch_error (fs m) kwargs = None →
  build_costing module kwargs m =
    (Ok (), Model (fs m)
              (log m ++ unit_costing_events module (fs m) kwargs
                     ++ [GetSystemCosting module])).
Proof.
  intros H. rewrite build_costing_cases. unfold dispatched.
  by rewrite run_sections_error, run_sections_events, H.
Qed.

Lemma variant_events_calls module f kwargs u key known :
  system_costing_calls (variant_events module f kwargs u key known) = [].
Proof. unfold variant_events. by case_bool_decide. Qed.

Lemma present_events_calls module f u kw :
  system_costing_calls (present_events module f u kw) = [].
Proof. unfold present_events. by case_bool_decide. Qed.

Lemma system_costing_calls_app evs1 evs2 :
  system_costing_calls (evs1 ++ evs2) =
  system_costing_calls evs1 ++ system_costing_calls evs2.
Proof. apply omap_app. Qed.

Lemma costed_units_app evs1 evs2 :
  costed_units (evs1 ++ evs2) = costed_units evs1 ++ costed_units evs2.
Proof. apply omap_app. Qed.

Lemma unit_costing_events_calls module f kwargs :
  system_costing_calls (unit_costing_events module f kwargs) = [].
Proof.
  unfold unit_costing_events.
  by rewrite !system_costing_calls_app, !variant_events_calls, !present_events_calls.
Qed.

(** A run that raises has not reached the system-level aggregator. *)
Lemma run_sections_raise module f kwargs e :
  dispatch_error f kwargs = Some e →
  system_costing_calls (run_sections (sections module f kwargs)).2 = [].
Proof.
  unfold dispatch_error, sections. cbn [run_sections].
  destruct (section_error f kwargs "NF" "NF_type" "ZO"); [done|].
  destruct (section_error f kwargs "RO" "RO_type" "0D");
    [intros _; cbn; by rewrite app_nil_r, variant_events_calls|].
  destruct (present_error f "pump_RO");
    [intros _; cbn; by rewrite app_nil_r, !system_costing_calls_app,
                               !variant_events_calls|].
  destruct (present_error f "pump_RO2");
    [intros _; cbn; by rewrite app_nil_r, !system_costing_calls_app,
                               !variant_events_calls, !present_events_calls|].
  destruct (present_error f "RO2");
    [intros _; cbn; by rewrite app_nil_r, !system_costing_calls_app,
                               !variant_events_calls, !present_events_calls|].
  destruct (present_error f "stoich_softening_mixer_unit");
    [intros _; cbn; by rewrite app_nil_r, !system_costing_calls_app,
                               !variant_events_calls, !present_events_calls|].
  destruct (present_error f "ideal_naocl_mixer_unit");
    [intros _; cbn; by rewrite app_nil_r, !system_costing_calls_app,
                               !variant_events_calls, !present_events_calls|].
  done.
Qed.

Lemma costed_units_present module f u kw :
  costed_units (present_events module f u kw) =
  if bool_decide (is_Some (f !! u)) then [u] else [].
Proof. unfold present_events. by case_bool_decide. Qed.

Lemma costed_units_variant module f kwargs u key known :
  costed_units (variant_events module f kwargs u key known) =
  if bool_decide (is_Some (f !! u) ∧ kwargs !! key = Some (PStr known)) then [u] else [].
Proof. unfold variant_events. by case_bool_decide. Qed.

Lemma elem_of_optional (b : bool) (u x : string) :
  x ∈ (if b then [u] else []) → b = true ∧ x = u.
Proof.
  destruct b; [by intros ->%list_elem_of_singleton | by intros ?%elem_of_nil].
Qed.

(** A unit on which some section calls [get_costing] is on the flowsheet, and
    when it is the nanofiltration or the reverse osmosis, its selector names
    the costed variant. *)
Lemma costed_units_selected module f kwargs u :
  u ∈ costed_units (unit_costing_events module f kwargs) →
  is_Some (f !! u) ∧
  (u = "NF" → kwargs !! "NF_type" = Some (PStr "ZO")) ∧
  (u = "RO" → kwargs !! "RO_type" = Some (PStr "0D")).
Proof.
  unfold unit_costing_events.
  rewrite !costed_units_app, !costed_units_variant, !costed_units_present.
  rewrite !elem_of_app.
  intros [H | [H | [H | [H | [H | [H | H]]]]]];
    apply elem_of_optional in H as [Hp%bool_decide_eq_true ->];
    try destruct Hp as [Hp Hs]; by split_and!.
Qed.

(** The calls of any run, completed or not, are among those of a run in which
    no section raises. *)
Lemma run_sections_costed module f kwargs u :
  u ∈ costed_units (run_sections (sections module f kwargs)).2 →
  u ∈ costed_units (unit_costing_events module f kwargs).
Proof.
  unfold sections, unit_costing_events. cbn [run_sections].
  destruct (section_error f kwargs "NF" "NF_type" "ZO");
    [by intros ?%elem_of_nil|].
  destruct (section_error f kwargs "RO" "RO_type" "0D");
    [cbn; rewrite app_nil_r, !costed_units_app, !elem_of_app; tauto|].
  destruct (present_error f "pump_RO");
    [cbn; rewrite app_nil_r, !costed_units_app, !elem_of_app; tauto|].
  destruct (present_error f "pump_RO2");
    [cbn; rewrite app_nil_r, !costed_units_app, !elem_of_app; tauto|].
  destruct (present_error f "RO2");
    [cbn; rewrite app_nil_r, !costed_units_app, !elem_of_app; tauto|].
  destruct (present_error f "stoich_softening_mixer_unit");
    [cbn; rewrite app_nil_r, !costed_units_app, !elem_of_app; tauto|].
  destruct (present_error f "ideal_naocl_mixer_unit");
    [cbn; rewrite app_nil_r, !costed_units_app, !elem_of_app; tauto|].
  cbn. rewrite !costed_units_app, !elem_of_app. cbn.
  rewrite elem_of_nil. tauto.
Qed.

Lemma unknown_variant_not_costed module f kwargs u key known :
  (u = "NF" ∧ key = "NF_type" ∧ known = "ZO") ∨
  (u = "RO" ∧ key = "RO_type" ∧ known = "0D") →
  unknown_variant f kwargs u key known →
  u ∉ costed_units (unit_costing_events module f kwargs).
Proof.
  intros Hsel (_ & v & Hk & Hknown & _) (_ & Hnf & Hro)%costed_units_selected.
  destruct Hsel as [(-> & -> & ->) | (-> & -> & ->)].
  - rewrite Hnf in Hk by done. by simplify_eq.
  - rewrite Hro in Hk by done. by simplify_eq.
Qed.

Lemma unknown_variant_error f kwargs u key known :
  unknown_variant f kwargs u key known → section_error f kwargs u key known = None.
Proof.
  intros (Hu & v & Hk & Hknown & Hsep). unfold section_error.
  by rewrite bool_decide_eq_true_2, Hk, !bool_decide_eq_false_2.
Qed.

Lemma section_error_sep f kwargs u key known :
  known ≠ "Sep" →
  is_Some (f !! u) → kwargs !! key = Some (PStr "Sep") →
  section_error f kwargs u key known = Some NotImplementedError.
Proof.
  intros Hne Hu Hk. unfold section_error.
  rewrite bool_decide_eq_true_2, Hk by done.
  rewrite bool_decide_eq_false_2 by (intros [=]; done).
  by rewrite bool_decide_eq_true_2.
Qed.

(** When the nanofiltration section passes. *)
Lemma section_error_None f kwargs u key known :
  section_error f kwargs u key known = None ↔
  f !! u = None ∨
  (kwargs !! key = Some (PStr known) ∧ costable f u) ∨
  (∃ v, kwargs !! key = Some v ∧ v ≠ PStr known ∧ v ≠ PStr "Sep").
Proof.
  unfold section_error. case_bool_decide as Hu.
  - destruct (kwargs !! key) as [v|] eqn:Hk.
    + case_bool_decide as Hv.
      * subst v. rewrite get_costing_error_None. split.
        -- intros ?. right. left. done.
        -- intros [Habs | [[_ ?] | (v & [= <-] & ? & _)]]; [|done..].
           rewrite Habs in Hu. by destruct Hu.
      * case_bool_decide as Hs.
        -- split; [done|].
           intros [Habs | [[[= ->] _] | (w & [= <-] & _ & ?)]]; [|done..].
           rewrite Habs in Hu. by destruct Hu.
        -- split; [|done]. intros _. right. right. eauto.
    + split; [done|].
      intros [Habs | [[[=] _] | (w & [=] & _)]].
      rewrite Habs in Hu. by destruct Hu.
  - split; [|done]. intros _. left.
    destruct (f !! u); [|done]. destruct Hu. eauto.
Qed.




(** C9 as stated fails: skipping the unit does not keep the rest of the
    dispatcher from raising.  On the flowsheet a report leaves behind, the
    nanofiltration block is there (a placeholder) and [NF_type='XX'] is
    neither ['ZO'] nor ['Sep']; the dispatcher skips it, costs the
    first-stage reverse osmosis and pump, then raises [AttributeError] on the
    placeholder of the second-stage pump, which has no [get_costing].  The
    system-level aggregator is not called. *)
Lemma unknown_variant_then_placeholder_raises :
  let m := (display_costing single_stage).2 in
  let kwargs : gmap string pyval :=
    <["NF_type" := PStr "XX"]> (<["RO_type" := PStr "0D"]> ∅) in
  unknown_variant (fs m) kwargs "NF" "NF_type" "ZO" ∧
  build_costing "financials" kwargs m =
    (Raise AttributeError,
     Model (fs m)
       (log m ++ [ GetCosting "RO" "financials" [];
                   GetCosting "pump_RO" "financials" [("pump_type", "High pressure")] ])).
Proof.
  cbn zeta. split; [|reflexivity].
  split; [by eexists|]. exists (PStr "XX"). by split_and!.
Qed.

(** C9 (amended): a nanofiltration block whose selector is neither ['ZO'] nor
    ['Sep'], or a reverse-osmosis block whose selector is neither ['0D'] nor
    ['Sep'], is skipped: its section raises nothing and calls nothing, and
    [get_costing] is not called on it by the run.  The run leaves the
    flowsheet as it is.  It returns normally, with [get_system_costing] as
    its last and only aggregation call, exactly when no other section
    raises; otherwise it raises the exception of the first section that does,
    and the aggregator is not called. *)
Theorem unknown_variant_skipped module kwargs m :
  unknown_variant (fs m) kwargs "NF" "NF_type" "ZO" ∨
  unknown_variant (fs m) kwargs "RO" "RO_type" "0D" →
  ∃ evs,
    (build_costing module kwargs m).2 = Model (fs m) (log m ++ evs) ∧
    (unknown_variant (fs m) kwargs "NF" "NF_type" "ZO" →
     costing_NF module kwargs m = (Ok (), m) ∧ "NF" ∉ costed_units evs) ∧
    (unknown_variant (fs m) kwargs "RO" "RO_type" "0D" →
     costing_RO module kwargs m = (Ok (), m) ∧ "RO" ∉ costed_units evs) ∧
    match dispatch_error (fs m) kwargs with
    | None =>
        (build_costing module kwargs m).1 = Ok () ∧
        ∃ evs', evs = evs' ++ [GetSystemCosting module] ∧
                system_costing_calls evs' = []
    | Some e =>
        (build_costing module kwargs m).1 = Raise e ∧
        system_costing_calls evs = []
    end.
Proof.
  intros _. rewrite build_costing_cases. unfold dispatched. cbn [fst snd].
  eexists. split; [done|].
  assert (∀ u key known,
    (u = "NF" ∧ key = "NF_type" ∧ known = "ZO") ∨
    (u = "RO" ∧ key = "RO_type" ∧ known = "0D") →
    unknown_variant (fs m) kwargs u key known →
    u ∉ costed_units (run_sections (sections module (fs m) kwargs)).2) as Hskip.
  { intros u key known Hsel Hu Hin%run_sections_costed.
    by eapply unknown_variant_not_costed. }
  split; [|split].
  - intros Hu. split; [|apply (Hskip "NF" "NF_type" "ZO"); auto].
    rewrite costing_NF_run, (unknown_variant_error _ _ _ _ _ Hu).
    unfold variant_events. destruct Hu as (_ & v & Hk & Hv & _).
    rewrite bool_decide_eq_false_2 by (rewrite Hk; intros [_ [=]]; done).
    by rewrite model_eta.
  - intros Hu. split; [|apply (Hskip "RO" "RO_type" "0D"); auto].
    rewrite costing_RO_run, (unknown_variant_error _ _ _ _ _ Hu).
    unfold variant_events. destruct Hu as (_ & v & Hk & Hv & _).
    rewrite bool_decide_eq_false_2 by (rewrite Hk; intros [_ [=]]; done).
    by rewrite model_eta.
  - rewrite run_sections_error.
    destruct (dispatch_error (fs m) kwargs) as [e|] eqn:Herr.
    + split; [done|]. by eapply run_sections_raise.
    + split; [done|]. rewrite run_sections_events by done.
      eexists. split; [done|]. apply unit_costing_events_calls.
Qed.

Lemma unknown_variant_skipped_witness :
  let kwargs : gmap string pyval := <["RO_type" := PStr "1D"]> ∅ in
  (unknown_variant (fs single_stage) kwargs "NF" "NF_type" "ZO" ∨
   unknown_variant (fs single_stage) kwargs "RO" "RO_type" "0D") ∧
  ∃ evs,
    (build_costing "financials" kwargs single_stage).2 =
      Model (fs single_stage) (log single_stage ++ evs) ∧
    (unknown_variant (fs single_stage) kwargs "NF" "NF_type" "ZO" →
     costing_NF "financials" kwargs single_stage = (Ok (), single_stage) ∧
     "NF" ∉ costed_units evs) ∧
    (unknown_variant (fs single_stage) kwargs "RO" "RO_type" "0D" →
     costing_RO "financials" kwargs single_stage = (Ok (), single_stage) ∧
     "RO" ∉ costed_units evs) ∧
    match dispatch_error (fs single_stage) kwargs with
    | None =>
        (build_costing "financials" kwargs single_stage).1 = Ok () ∧
        ∃ evs', evs = evs' ++ [GetSystemCosting "financials"] ∧
                system_costing_calls evs' = []
    | Some e =>
        (build_costing "financials" kwargs single_stage).1 = Raise e ∧
        system_costing_calls evs = []
    end.
Proof.
  assert (unknown_variant (fs single_stage) (<["RO_type" := PStr "1D"]> ∅)
            "NF" "NF_type" "ZO" ∨
          unknown_variant (fs single_stage) (<["RO_type" := PStr "1D"]> ∅)
            "RO" "RO_type" "0D") as H.
  { right. split; [by eexists|]. exists (PStr "1D"). by split_and!. }
  split; [exact H|].
  exact (unknown_variant_skipped "financials" _ single_stage H).
Defined.

(** ** costing.py: the report *)

Lemma get_path_raise f path e : get_path f path = Raise e → e = AttributeError.
Proof.
  revert f. induction path as [|a [|b rest] IH]; intros f; cbn.
  - congruence.
  - destruct (f !! a); congruence.
  - destruct (f !! a) as [[]|]; try congruence. apply IH.
Qed.

Lemma get_path_insert_ne a c f b rest :
  a ≠ b → get_path (<[a := c]> f) (b :: rest) = get_path f (b :: rest).
Proof. intros H. destruct rest; cbn; by rewrite lookup_insert_ne. Qed.

Lemma get_path_absent f a rest :
  f !! a = None → get_path f (a :: rest) = Raise AttributeError.
Proof. intros H. destruct rest; cbn; by rewrite H. Qed.

Lemma get_path_present f a b rest c :
  get_path f (a :: b :: rest) = Ok c → is_Some (f !! a).
Proof. cbn. destruct (f !! a); [eauto | done]. Qed.

Lemma get_path_placeholder u f :
  get_path (<[u := placeholder]> f) [u; "costing"; "operating_cost"] = Ok (Num 0).
Proof. cbn. by rewrite lookup_insert_eq. Qed.

Lemma rd_run path m : rd path m = (get_path (fs m) path, m).
Proof. reflexivity. Qed.

Lemma rdo_run path c m :
  get_path (fs m) path = Ok c → rdo path m = (Ok (OComp c), m).
Proof. intros H. unfold rdo. by rewrite (bind_ok _ _ m c m) by (by rewrite rd_run, H). Qed.

Lemma rdo_absent a rest m :
  fs m !! a = None → rdo (a :: rest) m = (Raise AttributeError, m).
Proof.
  intros H. unfold rdo. apply bind_raise. by rewrite rd_run, get_path_absent.
Qed.

(** *** The backfill *)

Lemma backfill_run u m :
  backfill u m =
    (Ok (), Model (backfilled u (fs m)) (log m ++ backfilled_events u (fs m))).
Proof.
  unfold backfill, backfilled, backfilled_events.
  rewrite (bind_ok _ _ _ _ _ (hasattr_run u m)).
  case_bool_decide; cbn; [by rewrite model_eta|].
  unfold assign, mbind, M_bind. cbn.
  rewrite !lookup_insert_eq. cbn. rewrite !lookup_insert_eq. cbn.
  rewrite !insert_insert_eq, <- !app_assoc. done.
Qed.

Lemma backfilled_lookup_ne u f k : u ≠ k → backfilled u f !! k = f !! k.
Proof. intros H. unfold backfilled. case_bool_decide; [done|]. by rewrite lookup_insert_ne. Qed.

Lemma backfilled_lookup_Some u f k c : f !! k = Some c → backfilled u f !! k = Some c.
Proof.
  intros H. unfold backfilled. case_bool_decide as Hu; [done|].
  rewrite lookup_insert_ne; [done|]. intros ->. apply Hu. eauto.
Qed.

Lemma backfilled_absent u f :
  f !! u = None → backfilled u f = <[u := placeholder]> f.
Proof. intros H. unfold backfilled. rewrite bool_decide_eq_false_2; [done|]. rewrite H. by intros [? ?]. Qed.

Lemma backfilled_present u f :
  is_Some (f !! u) → backfilled u f = f.
Proof. intros H. unfold backfilled. by rewrite bool_decide_eq_true_2. Qed.

Lemma emitted_backfilled_events u f : emitted (backfilled_events u f) = [].
Proof. unfold backfilled_events. by case_bool_decide. Qed.

Lemma emitted_app evs1 evs2 : emitted (evs1 ++ evs2) = emitted evs1 ++ emitted evs2.
Proof. apply omap_app. Qed.

(** *** The part after the backfill keeps the flowsheet *)

Lemma keeps_ret {A} (a : A) : keeps_fs (mret a).
Proof. by intros m. Qed.

Lemma keeps_raise {A} e : keeps_fs (raise e : M A).
Proof. by intros m. Qed.

Lemma keeps_lift {A} (r : result A) : keeps_fs (lift r).
Proof. by intros m. Qed.

Lemma keeps_call ev : keeps_fs (call ev).
Proof. by intros m. Qed.

Lemma keeps_rd path : keeps_fs (rd path).
Proof. by intros m. Qed.

Lemma keeps_hasattr u : keeps_fs (hasattr u).
Proof. by intros m. Qed.

Lemma keeps_bind {A B} (c : M A) (f : A → M B) :
  keeps_fs c → (∀ a, keeps_fs (f a)) → keeps_fs (c ≫= f).
Proof.
  intros Hc Hf m. unfold mbind, M_bind. specialize (Hc m).
  destruct (c m) as [[a|e] m1]; cbn in *; [|done].
  by rewrite Hf.
Qed.

Lemma keeps_when b c : keeps_fs c → keeps_fs (when b c).
Proof. destruct b; [done | intros _; apply keeps_ret]. Qed.

Create HintDb keeps.
#[local] Hint Resolve keeps_ret keeps_raise keeps_lift keeps_call keeps_rd
  keeps_hasattr keeps_when : keeps.

Ltac keeps :=
  repeat first
    [ apply keeps_bind; [ | intros ? ]
    | solve [ auto with keeps ] ].

Lemma keeps_rdo path : keeps_fs (rdo path).
Proof. unfold rdo. keeps. Qed.

Lemma keeps_binop op x y : keeps_fs (binop op x y).
Proof. unfold binop. keeps. Qed.

#[local] Hint Resolve keeps_rdo keeps_binop : keeps.

Lemma keeps_cost_dict crf : keeps_fs (cost_dict crf).
Proof. unfold cost_dict. keeps. Qed.

Lemma keeps_print_items items : keeps_fs (print_items items).
Proof. induction items as [|[item val] rest IH]; cbn [print_items]; keeps. Qed.

Lemma keeps_specific u attr : keeps_fs (specific u attr).
Proof. unfold specific. keeps. Qed.

#[local] Hint Resolve keeps_cost_dict keeps_print_items keeps_specific : keeps.

Lemma keeps_mixer_report u label crf : keeps_fs (mixer_report u label crf).
Proof. unfold mixer_report. keeps. apply keeps_when. keeps. Qed.

#[local] Hint Resolve keeps_mixer_report : keeps.

Lemma keeps_report crf : keeps_fs (report crf).
Proof. unfold report. keeps; apply keeps_when; keeps. Qed.

(** The flowsheet after [display_costing], whether it returns or raises. *)
Lemma display_costing_fs m :
  fs (display_costing m).2 =
    match get_path (fs m) ["costing_param"; "factor_capital_annualization"] with
    | Ok _ => backfill_all (fs m)
    | Raise _ => fs m
    end.
Proof.
  unfold display_costing.
  destruct (get_path (fs m) ["costing_param"; "factor_capital_annualization"])
    as [c|e] eqn:Hc.
  - erewrite bind_ok; [|by rewrite rd_run, Hc].
    do 3 (erewrite bind_ok; [|apply backfill_run]; cbn [fs log]).
    by rewrite keeps_report.
  - erewrite bind_raise; [|by rewrite rd_run, Hc]. done.
Qed.

(** C8 as stated fails: on a single-stage flowsheet, [display_costing]
    attaches three blocks that were not there before the report. *)
Lemma display_costing_mutates_flowsheet :
  let m' := (display_costing single_stage).2 in
  fs single_stage !! "NF" = None ∧
  fs m' !! "NF" = Some placeholder ∧
  fs m' ≠ fs single_stage.
Proof.
  cbn zeta. rewrite display_costing_fs.
  assert (get_path (fs single_stage) ["costing_param"; "factor_capital_annualization"]
          = Ok (Num 0.1)) as -> by reflexivity.
  assert (backfill_all (fs single_stage) !! "NF" = Some placeholder) as Hnf
    by reflexivity.
  split_and!; [reflexivity | exact Hnf | ].
  intros Heq. rewrite Heq in Hnf. discriminate Hnf.
Qed.

(** C8 (amended): [display_costing] never removes or replaces a sub-block of
    the flowsheet.  Once the capital-recovery factor has been read, it
    attaches a zero-cost placeholder under each of the names [pump_RO2], [NF]
    and [RO2] that is absent, and that is its only effect on the flowsheet;
    if the factor cannot be read the flowsheet is left as it was. *)
Theorem display_costing_only_backfills m :
  fs (display_costing m).2 =
    match get_path (fs m) ["costing_param"; "factor_capital_annualization"] with
    | Ok _ => backfilled "RO2" (backfilled "NF" (backfilled "pump_RO2" (fs m)))
    | Raise _ => fs m
    end.
Proof. apply display_costing_fs. Qed.

(** *** A missing first-stage unit *)












Lemma backfill_all_lookup_ne f k :
  k ≠ "pump_RO2" → k ≠ "NF" → k ≠ "RO2" → backfill_all f !! k = f !! k.
Proof. intros. unfold backfill_all. by rewrite !backfilled_lookup_ne. Qed.




(** *** A report that completes *)

Lemma print_items_run items m :
  ∀ vals,
    Forall2 (λ i v, value i.2 = Ok v) items vals →
    print_items items m =
      (Ok (), Model (fs m)
                (log m ++ zip_with (λ i v, Emit (Line i.1 v)) items vals)).
Proof.
  revert m. induction items as [|[item val] rest IH]; intros m vals Hv.
  - apply Forall2_nil_inv_l in Hv as ->. cbn. by rewrite model_eta.
  - apply Forall2_cons_inv_l in Hv as (v & vals' & Hval & Hrest & ->).
    cbn [print_items zip_with]. cbn in Hval.
    erewrite bind_ok; [|unfold lift; by rewrite Hval].
    erewrite bind_ok; [|reflexivity].
    rewrite (IH _ vals' Hrest). cbn [fs log]. by rewrite <- app_assoc.
Qed.

Lemma div_nonzero x y : Qeq_bool y 0 = false → div x y = Ok (x / y)%Q.
Proof. intros H. unfold div. by rewrite H. Qed.

Lemma specific_run u attr x awp m :
  get_path (fs m) [u; "costing"; attr] = Ok (Num x) →
  get_path (fs m) ["annual_water_production"] = Ok (Num awp) →
  Qeq_bool awp 0 = false →
  specific u attr m = (Ok (x / awp)%Q, m).
Proof.
  intros Hx Hawp Hnz. unfold specific.
  erewrite bind_ok; [|by rewrite rd_run, Hx].
  erewrite bind_ok; [|reflexivity].
  erewrite bind_ok; [|by rewrite rd_run, Hawp].
  erewrite bind_ok; [|reflexivity].
  unfold lift. by rewrite div_nonzero.
Qed.

Lemma mixer_report_run u label k c m :
  mixer_state (fs m) u c →
  get_path (fs m) ["annual_water_production"] = Ok (Num (annual_water_production k)) →
  Qeq_bool (annual_water_production k) 0 = false →
  mixer_report u label (Num (crf k)) m =
    (Ok (), Model (fs m) (log m ++ (Emit <$> mixer_lines label k c))).
Proof.
  intros Hc Hawp Hnz. unfold mixer_report.
  rewrite (bind_ok _ _ _ _ _ (hasattr_run u m)).
  destruct c as [[capital operating]|]; cbn [mixer_state] in Hc.
  - destruct Hc as [Hcap Hop].
    rewrite bool_decide_eq_true_2 by (by eapply get_path_present). cbn [when].
    erewrite bind_ok; [|by eapply specific_run].
    erewrite bind_ok; [|reflexivity].
    erewrite bind_ok; [|by eapply specific_run].
    erewrite bind_ok; [|reflexivity].
    unfold call. cbn [fs log mixer_lines fmap list_fmap]. by rewrite <- app_assoc.
  - rewrite bool_decide_eq_false_2 by (rewrite Hc; by intros [? ?]).
    cbn. by rewrite model_eta.
Qed.

Lemma backfilled_events_absent u f :
  f !! u = None → backfilled_events u f = backfill_events u.
Proof.
  intros H. unfold backfilled_events.
  rewrite bool_decide_eq_false_2; [done|]. rewrite H. by intros [? ?].
Qed.

Lemma mixer_state_insert_ne a c f u s :
  a ≠ u → mixer_state f u s → mixer_state (<[a := c]> f) u s.
Proof.
  intros Hne. destruct s as [[capital operating]|]; cbn [mixer_state].
  - by rewrite !get_path_insert_ne.
  - by rewrite lookup_insert_ne.
Qed.

(** One statement of the report: a read, an arithmetic operation, or a call. *)
Ltac report_step :=
  erewrite bind_ok;
  [ | first [ apply rdo_run; eassumption
            | rewrite rd_run; f_equal; eassumption
            | eapply specific_run; eassumption
            | apply hasattr_run
            | reflexivity ] ];
  cbn [fs log].

(** The dictionary literal on a flowsheet where every cost it reads is a
    number. *)
Lemma cost_dict_run k p2 nf r2 m :
  get_path (fs m) ["costing"; "LCOW"] = Ok (Num (LCOW k)) →
  get_path (fs m) ["costing"; "investment_cost_total"] = Ok (Num (investment_cost_total k)) →
  get_path (fs m) ["costing"; "capital_cost_total"] = Ok (Num (capital_cost_total k)) →
  get_path (fs m) ["costing"; "operating_cost_total"] = Ok (Num (operating_cost_total k)) →
  get_path (fs m) ["costing"; "operating_cost_MLC"] = Ok (Num (operating_cost_MLC k)) →
  get_path (fs m) ["annual_water_production"] = Ok (Num (annual_water_production k)) →
  get_path (fs m) ["pump_RO"; "costing"; "operating_cost"] = Ok (Num (pump_RO_operating_cost k)) →
  get_path (fs m) ["RO"; "costing"; "operating_cost"] = Ok (Num (RO_operating_cost k)) →
  get_path (fs m) ["pump_RO2"; "costing"; "operating_cost"] = Ok (Num p2) →
  get_path (fs m) ["NF"; "costing"; "operating_cost"] = Ok (Num nf) →
  get_path (fs m) ["RO2"; "costing"; "operating_cost"] = Ok (Num r2) →
  let awp := EVal (annual_water_production k) in
  let rate := EVal (crf k) in
  cost_dict (Num (crf k)) m =
    (Ok [ ("LCOW", OComp (Num (LCOW k)));
          ("Total CAPEX",
            OExpr (EDiv (EMul (EVal (investment_cost_total k)) rate) awp));
          ("Direct CAPEX",
            OExpr (EDiv (EMul (EVal (capital_cost_total k)) rate) awp));
          ("Indirect CAPEX",
            OExpr (EDiv (EMul (ESub (EVal (investment_cost_total k))
                                    (EVal (capital_cost_total k))) rate) awp));
          ("Total OPEX", OExpr (EDiv (EVal (operating_cost_total k)) awp));
          ("Maintenance/Labor/Chemical Costs", OComp (Num (operating_cost_MLC k)));
          ("Total Electricity Cost",
            OExpr (EDiv (EAdd (EVal (pump_RO_operating_cost k)) (EVal p2)) awp));
          ("Stage 1 HP Pump Electricity Cost",
            OExpr (EDiv (EVal (pump_RO_operating_cost k)) awp));
          ("Stage 2 HP Pump Electricity Cost", OExpr (EDiv (EVal p2) awp));
          ("Total Membrane Replacement Cost",
            OExpr (EDiv (EAdd (EAdd (EVal nf) (EVal (RO_operating_cost k)))
                              (EVal r2)) awp));
          ("NF Membrane Replacement Cost", OExpr (EDiv (EVal nf) awp));
          ("Stage 1 RO Membrane Replacement Cost",
            OExpr (EDiv (EVal (RO_operating_cost k)) awp));
          ("Stage 2 RO Membrane Replacement Cost", OExpr (EDiv (EVal r2) awp)) ],
     m).
Proof.
  intros. unfold cost_dict. do 46 report_step. reflexivity.
Qed.

(** C7: on a flowsheet whose first stage is costed (with or without costed
    mixers) and which has no second-stage pump, no second-stage reverse
    osmosis and no nanofiltration, [display_costing] returns normally.  It
    first attaches a zero-cost placeholder for each of the three missing
    blocks, then writes every line of the fixed layout, each contribution of
    a missing block being 0. *)
Theorem report_with_missing_units m k lime chlorination :
  fs m !! "pump_RO2" = None → fs m !! "NF" = None → fs m !! "RO2" = None →
  stage1_costed (fs m) k →
  Qeq_bool (annual_water_production k) 0 = false →
  mixer_state (fs m) "stoich_softening_mixer_unit" lime →
  mixer_state (fs m) "ideal_naocl_mixer_unit" chlorination →
  display_costing m =
    (Ok (),
     Model (<["RO2" := placeholder]>
             (<["NF" := placeholder]> (<["pump_RO2" := placeholder]> (fs m))))
           (log m
            ++ backfill_events "pump_RO2" ++ backfill_events "NF"
            ++ backfill_events "RO2"
            ++ (Emit <$> report_lines k
                         ++ mixer_lines "Lime Softening" k lime
                         ++ mixer_lines "Chlorination" k chlorination))).
Proof.
  intros Hpump2 Hnf Hro2 (Hcrf & Hlcow & Hinv & Hcap & Hopx & Hmlc & Hawp & Hp1 & Hr1)
    Hnz Hlime Hchl.
  unfold display_costing.
  erewrite bind_ok; [|by rewrite rd_run, Hcrf].
  do 3 (erewrite bind_ok; [|apply backfill_run]; cbn [fs log]).
  rewrite (backfilled_absent "pump_RO2"), (backfilled_events_absent "pump_RO2") by done.
  rewrite (backfilled_absent "NF"), (backfilled_events_absent "NF")
    by (by rewrite lookup_insert_ne).
  rewrite (backfilled_absent "RO2"), (backfilled_events_absent "RO2")
    by (by rewrite !lookup_insert_ne).
  set (f := <["RO2" := placeholder]> _).
  assert (get_path f ["pump_RO2"; "costing"; "operating_cost"] = Ok (Num 0)) as Hp2.
  { unfold f. rewrite !get_path_insert_ne by done. apply get_path_placeholder. }
  assert (get_path f ["NF"; "costing"; "operating_cost"] = Ok (Num 0)) as Hnf0.
  { unfold f. rewrite get_path_insert_ne by done. apply get_path_placeholder. }
  assert (get_path f ["RO2"; "costing"; "operating_cost"] = Ok (Num 0)) as Hr2
    by apply get_path_placeholder.
  assert (mixer_state f "stoich_softening_mixer_unit" lime) as Hlime'
    by (unfold f; by repeat apply mixer_state_insert_ne).
  assert (mixer_state f "ideal_naocl_mixer_unit" chlorination) as Hchl'
    by (unfold f; by repeat apply mixer_state_insert_ne).
  assert (∀ path, (∃ a rest, path = a :: rest ∧ a ≠ "RO2" ∧ a ≠ "NF" ∧ a ≠ "pump_RO2") →
            get_path f path = get_path (fs m) path) as Hsame.
  { intros path (a & rest & -> & ? & ? & ?). unfold f.
    by rewrite !get_path_insert_ne. }
  rewrite <- Hsame in Hlcow, Hinv, Hcap, Hopx, Hmlc, Hawp, Hp1, Hr1
    by (eexists _, _; by split_and!).
  clearbody f. clear Hsame Hcrf Hlime Hchl.
  unfold report.
  erewrite bind_ok; [|by eapply cost_dict_run]. cbn zeta.
  erewrite bind_ok; cycle 1.
  { apply print_items_run.
    repeat (econstructor;
            [cbn [value eval snd]; rewrite ?div_nonzero by done; reflexivity|]).
    constructor. }
  cbn [fs log zip_with fst].
  do 3 report_step.
  report_step. rewrite bool_decide_eq_true_2 by (by eapply get_path_present). cbn [when].
  erewrite bind_ok; cycle 1.
  { erewrite bind_ok; [|by eapply specific_run]. reflexivity. }
  cbn [fs log].
  report_step. rewrite bool_decide_eq_true_2 by (by eapply get_path_present). cbn [when].
  erewrite bind_ok; cycle 1.
  { erewrite bind_ok; [|by eapply specific_run]. reflexivity. }
  cbn [fs log].
  erewrite bind_ok; [|by eapply mixer_report_run]. cbn [fs log].
  erewrite mixer_report_run by done. cbn [fs log].
  f_equal. f_equal. rewrite !fmap_app, <- !app_assoc. done.
Qed.

Lemma report_with_missing_units_witness :
  fs single_stage !! "pump_RO2" = None ∧ fs single_stage !! "NF" = None ∧
  fs single_stage !! "RO2" = None ∧
  stage1_costed (fs single_stage) single_stage_readings ∧
  Qeq_bool (annual_water_production single_stage_readings) 0 = false ∧
  mixer_state (fs single_stage) "stoich_softening_mixer_unit" None ∧
  mixer_state (fs single_stage) "ideal_naocl_mixer_unit" None ∧
  display_costing single_stage =
    (Ok (),
     Model (<["RO2" := placeholder]>
             (<["NF" := placeholder]> (<["pump_RO2" := placeholder]> (fs single_stage))))
           (log single_stage
            ++ backfill_events "pump_RO2" ++ backfill_events "NF"
            ++ backfill_events "RO2"
            ++ (Emit <$> report_lines single_stage_readings
                         ++ mixer_lines "Lime Softening" single_stage_readings None
                         ++ mixer_lines "Chlorination" single_stage_readings None))).
Proof.
  assert (stage1_costed (fs single_stage) single_stage_readings) as Hcosted
    by (unfold stage1_costed; split_and!; reflexivity).
  do 7 (split; [first [exact Hcosted | reflexivity]|]).
  apply (report_with_missing_units single_stage single_stage_readings None None);
    first [exact Hcosted | reflexivity].
Defined.

(** The placeholder contributions leave the totals at the first-stage
    values. *)
Lemma zero_contributions k :
  let awp := annual_water_production k in
  (0 / awp == 0)%Q ∧
  ((pump_RO_operating_cost k + 0) / awp == pump_RO_operating_cost k / awp)%Q ∧
  ((0 + RO_operating_cost k + 0) / awp == RO_operating_cost k / awp)%Q.
Proof. cbn zeta. unfold Qdiv. split_and!; ring. Qed.

(** * Further properties *)

(** ** pretreatment.py: the builder *)

Lemma recognized_spec NF_type :
  recognized NF_type = true ↔ NF_type = "ZO" ∨ NF_type = "Sep".
Proof. unfold recognized. by rewrite bool_decide_eq_true. Qed.

Lemma unrecognized_spec NF_type :
  recognized NF_type = false ↔ NF_type ≠ "ZO" ∧ NF_type ≠ "Sep".
Proof. unfold recognized. rewrite bool_decide_eq_false. tauto. Qed.

(** Non-membership and absence of duplicates in a list given in full. *)
Ltac not_in_list :=
  let H := fresh in
  intros H; cbn in H;
  repeat (apply elem_of_cons in H as [H | H]; [discriminate H|]);
  by apply elem_of_nil in H.

Ltac no_dup :=
  cbn; repeat (apply NoDup_cons_2; [not_in_list|]); apply NoDup_nil_2.

(** A run on a recognized variant, with or without bypass. *)
Lemma build_run has_bypass NF_type base m :
  recognized NF_type = true →
  build_pretreatment_NF has_bypass NF_type base m =
    (Ok (returned_ports has_bypass),
     Model (if has_bypass then bypass_flowsheet NF_type base (fs m)
            else direct_flowsheet NF_type base (fs m))
           (log m ++ builder_events has_bypass NF_type base)).
Proof.
  intros Hv%recognized_spec. destruct has_bypass.
  - by rewrite build_bypass_run.
  - by rewrite build_direct_run.
Qed.

(** X1: the builder returns normally exactly on the two recognized variant
    strings, with the mapping of its two ports; on every other string it
    raises [ValueError].  These are its only outcomes, with or without
    bypass and for every basis. *)
Theorem builder_outcome has_bypass NF_type NF_base m :
  (build_pretreatment_NF has_bypass NF_type NF_base m).1 =
    if recognized NF_type then Ok (returned_ports has_bypass)
    else Raise ValueError.
Proof.
  destruct (recognized NF_type) eqn:Hv.
  - by rewrite build_run.
  - apply unrecognized_spec in Hv as [? ?]. by rewrite build_invalid_run.
Qed.

(** X2: the builder touches only the names it assigns: the feed, the
    nanofiltration unit and, with bypass, the splitter, the mixer and the four
    arcs, or else the single arc.  Every other attribute of the flowsheet is
    as before, also when the builder raises. *)
Theorem builder_frame has_bypass NF_type NF_base m k :
  k ∉ builder_names has_bypass →
  fs (build_pretreatment_NF has_bypass NF_type NF_base m).2 !! k = fs m !! k.
Proof.
  intros Hk.
  assert (∀ n, n ∈ builder_names has_bypass → n ≠ k) as Hne
    by (by intros n Hn ->).
  destruct (recognized NF_type) eqn:Hv.
  - rewrite build_run by done. cbn [snd fs].
    destruct has_bypass; unfold bypass_flowsheet, direct_flowsheet;
      rewrite !lookup_insert_ne; try done;
      apply Hne; cbn; by repeat constructor.
  - apply unrecognized_spec in Hv as [? ?]. rewrite build_invalid_run by done.
    cbn [snd fs]. rewrite lookup_insert_ne; [done|].
    apply Hne. by repeat constructor.
Qed.

Lemma builder_frame_witness :
  let m := Model (<["RO" := Num 1]> ∅) [] in
  ("RO" ∉ builder_names true) ∧
  (fs (build_pretreatment_NF true "ZO" "ion" m).2 !! "RO" = fs m !! "RO").
Proof.
  assert ("RO" ∉ builder_names true) as H by not_in_list.
  split; [exact H|].
  exact (builder_frame true "ZO" "ion" (Model (<["RO" := Num 1]> ∅) []) "RO" H).
Defined.

(** X3: after a run on a recognized variant, every arc the builder declared
    is on the flowsheet and joins two ports that exist on it; no port is the
    source of two arcs and none the destination of two. *)
Theorem declared_arcs_connected has_bypass NF_type NF_base m :
  recognized NF_type = true →
  let m' := (build_pretreatment_NF has_bypass NF_type NF_base m).2 in
  let arcs := declared_arcs (builder_events has_bypass NF_type NF_base) in
  log m' = log m ++ builder_events has_bypass NF_type NF_base ∧
  Forall (connected (fs m')) arcs ∧
  NoDup (arc_sources arcs) ∧ NoDup (arc_destinations arcs).
Proof.
  intros Hv. cbn zeta. rewrite build_run by done. cbn [snd fs log].
  split; [done|].
  apply recognized_spec in Hv.
  destruct has_bypass; cbn [builder_events];
    destruct Hv as [-> | ->];
    (split; [|split; no_dup]);
    unfold bypass_flowsheet, direct_flowsheet;
    repeat (apply Forall_cons; split;
            [unfold connected; cbn [fst snd port_unit port_name];
             split_and!; lookups|]);
    by apply Forall_nil.
Qed.

Lemma declared_arcs_connected_witness :
  recognized "Sep" = true ∧
  let m' := (build_pretreatment_NF true "Sep" "salt" fresh).2 in
  let arcs := declared_arcs (builder_events true "Sep" "salt") in
  log m' = log fresh ++ builder_events true "Sep" "salt" ∧
  Forall (connected (fs m')) arcs ∧
  NoDup (arc_sources arcs) ∧ NoDup (arc_destinations arcs).
Proof.
  split; [reflexivity|].
  apply (declared_arcs_connected true "Sep" "salt" fresh). reflexivity.
Defined.

Lemma ports_lookup names p c : ports names !! p = Some c → c = PortC ∧ p ∈ names.
Proof.
  unfold ports. intros H%elem_of_list_to_map_2.
  apply list_elem_of_fmap in H as (n & [= -> ->] & Hn). done.
Qed.

Lemma get_path_port f u k attrs p :
  f !! u = Some (Blk k (ports attrs)) →
  get_path f [u; p] = Ok PortC → p ∈ attrs.
Proof.
  intros Hu. cbn. rewrite Hu.
  destruct (ports attrs !! p) as [c|] eqn:Hp; [|done].
  intros _. by apply ports_lookup in Hp as [_ ?].
Qed.

(** X4: in the network of a run on a recognized variant, every port of every
    unit is used exactly once: as the source of one arc, as the destination
    of one arc, or as one of the two ports handed back.  The product and the
    waste port are thus free for the caller to connect. *)
Theorem every_port_used_once has_bypass NF_type NF_base m u p :
  recognized NF_type = true →
  u ∈ network_units has_bypass →
  let m' := (build_pretreatment_NF has_bypass NF_type NF_base m).2 in
  let arcs := declared_arcs (builder_events has_bypass NF_type NF_base) in
  let used := arc_sources arcs ++ arc_destinations arcs
              ++ [product_port has_bypass; waste_port] in
  get_path (fs m') [u; p] = Ok PortC →
  PortRef u p ∈ used ∧ NoDup used.
Proof.
  intros Hv Hu. cbn zeta. rewrite build_run by done. cbn [snd fs].
  apply recognized_spec in Hv.
  intros Hp. split.
  - destruct has_bypass; cbn [network_units] in Hu;
      repeat (apply elem_of_cons in Hu as [-> | Hu]);
      try (by apply elem_of_nil in Hu);
      (eapply get_path_port in Hp;
       [|unfold bypass_flowsheet, direct_flowsheet, NF_block, new_Separator,
           new_Mixer; lookups]);
      destruct Hv as [-> | ->]; cbn;
      repeat (apply elem_of_cons in Hp as [-> | Hp]);
      try (by apply elem_of_nil in Hp);
      set_solver.
  - destruct has_bypass, Hv as [-> | ->]; no_dup.
Qed.

Lemma every_port_used_once_witness :
  recognized "ZO" = true ∧
  "splitter" ∈ network_units true ∧
  let m' := (build_pretreatment_NF true "ZO" "ion" fresh).2 in
  let arcs := declared_arcs (builder_events true "ZO" "ion") in
  let used := arc_sources arcs ++ arc_destinations arcs
              ++ [product_port true; waste_port] in
  get_path (fs m') ["splitter"; "bypass"] = Ok PortC ∧
  (PortRef "splitter" "bypass" ∈ used ∧ NoDup used).
Proof.
  assert ("splitter" ∈ network_units true) as Hu by (cbn; by repeat constructor).
  assert (get_path (fs (build_pretreatment_NF true "ZO" "ion" fresh).2)
            ["splitter"; "bypass"] = Ok PortC) as Hp by reflexivity.
  split; [reflexivity|]. split; [exact Hu|]. split; [exact Hp|].
  exact (every_port_used_once true "ZO" "ion" fresh "splitter" "bypass"
           eq_refl Hu Hp).
Defined.

(** X5: without bypass the initialization sequence is: feed, the
    feed-to-nanofiltration arc, nanofiltration (skipped exactly for ['Sep']);
    for both variants the only arc is propagated after its source unit, the
    feed, was initialized. *)
Theorem direct_initialization_order NF_type NF_base m :
  recognized NF_type = true →
  ∃ evs,
    log (build_pretreatment_NF false NF_type NF_base m).2 = log m ++ evs ∧
    init_sequence evs =
      [ Initialize "feed" user_scaling;
        Propagate "s_pretrt_feed_NF" (PortRef "feed" "outlet") (PortRef "NF" "inlet") ]
      ++ (if bool_decide (NF_type = "Sep") then [] else [Initialize "NF" user_scaling]) ∧
    unprimed [] evs = [].
Proof.
  intros Hv. eexists. rewrite build_run by done. split; [done|].
  apply recognized_spec in Hv. by destruct Hv as [-> | ->].
Qed.

Lemma direct_initialization_order_witness :
  recognized "Sep" = true ∧
  ∃ evs,
    log (build_pretreatment_NF false "Sep" "ion" fresh).2 = log fresh ++ evs ∧
    init_sequence evs =
      [ Initialize "feed" user_scaling;
        Propagate "s_pretrt_feed_NF" (PortRef "feed" "outlet") (PortRef "NF" "inlet") ]
      ++ (if bool_decide ("Sep" = "Sep") then [] else [Initialize "NF" user_scaling]) ∧
    unprimed [] evs = [].
Proof.
  split; [reflexivity|].
  apply (direct_initialization_order "Sep" "ion" fresh). reflexivity.
Defined.

(** X6: in either mode the units are initialized in flow order, each exactly
    once and each with the user-scaling solver option: all units of the
    network, except the nanofiltration unit when the variant is ['Sep']. *)
Theorem initialized_units_in_flow_order has_bypass NF_type NF_base m :
  recognized NF_type = true →
  ∃ evs,
    log (build_pretreatment_NF has_bypass NF_type NF_base m).2 = log m ++ evs ∧
    initializations evs =
      (λ u, (u, [("nlp_scaling_method", "user-scaling")])) <$>
        List.filter (λ u, negb (bool_decide (u = "NF" ∧ NF_type = "Sep")))
                    (network_units has_bypass) ∧
    NoDup (initializations evs).*1.
Proof.
  intros Hv. eexists. rewrite build_run by done. split; [done|].
  apply recognized_spec in Hv.
  destruct has_bypass, Hv as [-> | ->]; (split; [reflexivity | no_dup]).
Qed.

Lemma initialized_units_in_flow_order_witness :
  recognized "ZO" = true ∧
  ∃ evs,
    log (build_pretreatment_NF true "ZO" "ion" fresh).2 = log fresh ++ evs ∧
    initializations evs =
      (λ u, (u, [("nlp_scaling_method", "user-scaling")])) <$>
        List.filter (λ u, negb (bool_decide (u = "NF" ∧ "ZO" = "Sep")))
                    (network_units true) ∧
    NoDup (initializations evs).*1.
Proof.
  split; [reflexivity|].
  apply (initialized_units_in_flow_order true "ZO" "ion" fresh). reflexivity.
Defined.

(** X7: the stages of the builder never interleave: everything is built and
    wired before the split fraction is fixed, the split fraction is fixed
    before scaling factors are computed, and scaling comes before the first
    initialization.  The builder costs nothing and prints nothing. *)
Theorem builder_phases has_bypass NF_type NF_base m :
  recognized NF_type = true →
  ∃ evs,
    log (build_pretreatment_NF has_bypass NF_type NF_base m).2 = log m ++ evs ∧
    nondecreasing (phase <$> evs) = true ∧
    forallb is_builder_call evs = true.
Proof.
  intros Hv. eexists. rewrite build_run by done. split; [done|].
  apply recognized_spec in Hv.
  by destruct has_bypass, Hv as [-> | ->].
Qed.

Lemma builder_phases_witness :
  recognized "Sep" = true ∧
  ∃ evs,
    log (build_pretreatment_NF true "Sep" "ion" fresh).2 = log fresh ++ evs ∧
    nondecreasing (phase <$> evs) = true ∧
    forallb is_builder_call evs = true.
Proof.
  split; [reflexivity|].
  apply (builder_phases true "Sep" "ion" fresh). reflexivity.
Defined.

(** X8: for every recognized variant and every basis, a run with bypass fixes
    exactly one variable, the splitter's bypass split fraction at time 0, at
    0.1, and computes scaling factors for the splitter and the mixer only; a
    run without bypass fixes nothing and scales nothing. *)
Theorem specification_and_scaling has_bypass NF_type NF_base m :
  recognized NF_type = true →
  ∃ evs,
    log (build_pretreatment_NF has_bypass NF_type NF_base m).2 = log m ++ evs ∧
    fixed_vars evs =
      (if has_bypass then [("splitter", "split_fraction", 0%Z, "bypass", 0.1%Q)]
       else []) ∧
    scaled_units evs = (if has_bypass then ["splitter"; "mixer"] else []).
Proof.
  intros Hv. eexists. rewrite build_run by done. split; [done|].
  apply recognized_spec in Hv.
  by destruct has_bypass, Hv as [-> | ->].
Qed.

Lemma specification_and_scaling_witness :
  recognized "Sep" = true ∧
  ∃ evs,
    log (build_pretreatment_NF true "Sep" "salt" fresh).2 = log fresh ++ evs ∧
    fixed_vars evs =
      (if true then [("splitter", "split_fraction", 0%Z, "bypass", 0.1%Q)]
       else []) ∧
    scaled_units evs = (if true then ["splitter"; "mixer"] else []).
Proof.
  split; [reflexivity|].
  apply (specification_and_scaling true "Sep" "salt" fresh). reflexivity.
Defined.

(** X9: the two recognized variants are wired, specified and scaled
    identically: for the same bypass setting and basis, the runs return the
    same ports, declare the same arcs, build the same auxiliary units, fix
    and scale the same things, and leave flowsheets that differ at most in
    the nanofiltration block itself. *)
Theorem variants_wired_identically has_bypass NF_base m k :
  k ≠ "NF" →
  let zo := build_pretreatment_NF has_bypass "ZO" NF_base m in
  let sep := build_pretreatment_NF has_bypass "Sep" NF_base m in
  zo.1 = sep.1 ∧
  fs zo.2 !! k = fs sep.2 !! k ∧
  ∃ evs_zo evs_sep,
    log zo.2 = log m ++ evs_zo ∧ log sep.2 = log m ++ evs_sep ∧
    declared_arcs evs_zo = declared_arcs evs_sep ∧
    built_units evs_zo = built_units evs_sep ∧
    fixed_vars evs_zo = fixed_vars evs_sep ∧
    scaled_units evs_zo = scaled_units evs_sep.
Proof.
  intros Hk. cbn zeta. rewrite !build_run by done. cbn [fst snd fs log].
  split; [done|]. split.
  - destruct has_bypass; unfold bypass_flowsheet, direct_flowsheet;
      repeat match goal with
             | |- context [ <[?i := _]> _ !! k ] =>
                 destruct (decide (i = k)) as [<- | ?];
                 [ first [ done | by lookups ]
                 | rewrite !(lookup_insert_ne _ i k) by done ]
             end; done.
  - eexists _, _. split; [done|]. split; [done|]. by destruct has_bypass.
Qed.

Lemma variants_wired_identically_witness :
  "mixer" ≠ "NF" ∧
  let zo := build_pretreatment_NF true "ZO" "ion" fresh in
  let sep := build_pretreatment_NF true "Sep" "ion" fresh in
  zo.1 = sep.1 ∧
  fs zo.2 !! "mixer" = fs sep.2 !! "mixer" ∧
  ∃ evs_zo evs_sep,
    log zo.2 = log fresh ++ evs_zo ∧ log sep.2 = log fresh ++ evs_sep ∧
    declared_arcs evs_zo = declared_arcs evs_sep ∧
    built_units evs_zo = built_units evs_sep ∧
    fixed_vars evs_zo = fixed_vars evs_sep ∧
    scaled_units evs_zo = scaled_units evs_sep.
Proof.
  assert ("mixer" ≠ "NF") as H by discriminate.
  split; [exact H|].
  exact (variants_wired_identically true "ion" fresh "mixer" H).
Defined.

(** ** pretreatment.py: the driver *)

(** X10: handed an unrecognized variant, the driver stops on the builder's
    [ValueError].  Whatever the arc expansion, the degrees-of-freedom check
    and the solve would have done, they are not reached: when [build_prop]
    has returned, the driver ends in [ValueError] with the model as the
    builder left it, the property package resolved and the feed attached;
    when [build_prop] raises, that exception ends the driver before the
    builder is called. *)
Theorem driver_stops_on_invalid_variant
    build_prop expand_arcs check_dof solve_with_user_scaling
    has_bypass NF_type NF_base :
  recognized NF_type = false →
  solve_build_pretreatment_NF build_prop expand_arcs check_dof
      solve_with_user_scaling has_bypass NF_type NF_base =
    match build_prop NF_base fresh with
    | (Raise e, m) => (Raise e, m)
    | (Ok _, m) =>
        (Raise ValueError,
         Model (<["feed" := Blk (Feed NF_base) (ports ["outlet"])]> (fs m))
               (log m ++ [GetProp NF_base; BuildFeed NF_base]))
    end.
Proof.
  intros [Hzo Hsep]%unrecognized_spec.
  unfold solve_build_pretreatment_NF, mbind, M_bind.
  destruct (build_prop NF_base fresh) as [[[]|e] m]; [|done].
  by rewrite build_invalid_run.
Qed.

Lemma driver_stops_on_invalid_variant_witness :
  let build_prop : string → M unit := λ _, mret () in
  let not_reached : M unit := raise TypeError in
  recognized "RO" = false ∧
  solve_build_pretreatment_NF build_prop not_reached not_reached
      (λ _ _, not_reached) true "RO" "ion" =
    match build_prop "ion" fresh with
    | (Raise e, m) => (Raise e, m)
    | (Ok _, m) =>
        (Raise ValueError,
         Model (<["feed" := Blk (Feed "ion") (ports ["outlet"])]> (fs m))
               (log m ++ [GetProp "ion"; BuildFeed "ion"]))
    end.
Proof.
  split; [reflexivity|].
  apply (driver_stops_on_invalid_variant (λ _, mret ())
           (raise TypeError) (raise TypeError) (λ _ _, raise TypeError)
           true "RO" "ion").
  reflexivity.
Defined.

(** ** costing.py: the dispatcher, once more *)

(** X12: the outcome of the dispatcher is decided by the first section that
    raises, in source order.  The section of a unit with variants raises
    [KeyError] when the unit is on the flowsheet and its selector is not
    supplied, [NotImplementedError] when the selector is ['Sep'], and the
    exception of the method lookup ([AttributeError] on a block without
    [get_costing], like the placeholders of [display_costing]) when the
    selector names the costed variant; the section of any other unit raises
    the exception of the method lookup when the unit is on the flowsheet.
    When no section raises the dispatcher returns normally. *)
Theorem build_costing_outcome module kwargs m :
  (build_costing module kwargs m).1 =
    match dispatch_error (fs m) kwargs with
    | Some e => Raise e
    | None => Ok ()
    end.
Proof.
  rewrite build_costing_cases. unfold dispatched. cbn [fst].
  rewrite run_sections_error. by destruct (dispatch_error (fs m) kwargs).
Qed.

Lemma costing_calls_app evs1 evs2 :
  costing_calls (evs1 ++ evs2) = costing_calls evs1 ++ costing_calls evs2.
Proof. apply omap_app. Qed.

Lemma costing_calls_variant module f kwargs u key known :
  costing_calls (variant_events module f kwargs u key known) =
  if bool_decide (is_Some (f !! u) ∧ kwargs !! key = Some (PStr known))
  then [(u, module, [])] else [].
Proof. unfold variant_events. by case_bool_decide. Qed.

Lemma costing_calls_present module f u kw :
  costing_calls (present_events module f u kw) =
  if bool_decide (is_Some (f !! u)) then [(u, module, kw)] else [].
Proof. unfold present_events. by case_bool_decide. Qed.

Lemma selected_NF f kwargs :
  selected f kwargs "NF" =
  bool_decide (is_Some (f !! "NF") ∧ kwargs !! "NF_type" = Some (PStr "ZO")).
Proof. unfold selected. by repeat case_bool_decide; try tauto. Qed.

Lemma selected_RO f kwargs :
  selected f kwargs "RO" =
  bool_decide (is_Some (f !! "RO") ∧ kwargs !! "RO_type" = Some (PStr "0D")).
Proof. unfold selected. by repeat case_bool_decide; try tauto. Qed.

Lemma selected_other f kwargs u :
  u ≠ "NF" → u ≠ "RO" → selected f kwargs u = bool_decide (is_Some (f !! u)).
Proof.
  intros. unfold selected.
  rewrite (bool_decide_eq_false_2 (u = "NF")), (bool_decide_eq_false_2 (u = "RO")) by done.
  apply andb_true_r.
Qed.

Lemma costing_calls_table module f kwargs :
  costing_calls (unit_costing_events module f kwargs) =
  (λ row, (row.1, module, row.2)) <$>
    List.filter (λ row, selected f kwargs row.1) costing_table.
Proof.
  unfold unit_costing_events.
  rewrite !costing_calls_app, !costing_calls_variant, !costing_calls_present.
  unfold costing_table. cbn [List.filter fst snd].
  rewrite selected_NF, selected_RO, !selected_other by done.
  by repeat case_bool_decide.
Qed.

(** X13: whenever the dispatcher returns normally, it has called
    [get_costing] on exactly the units of its table that are on the flowsheet
    (the nanofiltration only with selector ['ZO'], the first-stage reverse
    osmosis only with ['0D']), once each, in the order of the table, with the
    module it was given and the keyword arguments of the table; its last call
    is the one call of [get_system_costing], with the same module. *)
Theorem build_costing_success module kwargs m m' :
  build_costing module kwargs m = (Ok (), m') →
  ∃ evs,
    log m' = log m ++ evs ++ [GetSystemCosting module] ∧
    system_costing_calls evs = [] ∧
    costing_calls evs =
      (λ row, (row.1, module, row.2)) <$>
        List.filter (λ row, selected (fs m) kwargs row.1) costing_table.
Proof.
  rewrite build_costing_cases. unfold dispatched.
  rewrite run_sections_error.
  destruct (dispatch_error (fs m) kwargs) eqn:Herr; [done|].
  rewrite run_sections_events by done.
  intros [= <-]. eexists. split; [done|].
  split; [apply unit_costing_events_calls | apply costing_calls_table].
Qed.

Lemma build_costing_success_witness :
  let kwargs : gmap string pyval := <["RO_type" := PStr "0D"]> ∅ in
  let m' := Model (fs single_stage)
              [ GetCosting "RO" "financials" [];
                GetCosting "pump_RO" "financials" [("pump_type", "High pressure")];
                GetSystemCosting "financials" ] in
  build_costing "financials" kwargs single_stage = (Ok (), m') ∧
  ∃ evs,
    log m' = log single_stage ++ evs ++ [GetSystemCosting "financials"] ∧
    system_costing_calls evs = [] ∧
    costing_calls evs =
      (λ row, (row.1, "financials", row.2)) <$>
        List.filter (λ row, selected (fs single_stage) kwargs row.1) costing_table.
Proof.
  assert (build_costing "financials" (<["RO_type" := PStr "0D"]> ∅) single_stage =
          (Ok (), Model (fs single_stage)
                    [ GetCosting "RO" "financials" [];
                      GetCosting "pump_RO" "financials" [("pump_type", "High pressure")];
                      GetSystemCosting "financials" ])) as H by reflexivity.
  split; [exact H|].
  exact (build_costing_success "financials" _ single_stage _ H).
Defined.

(** X14: a failure of the dispatcher is not undone.  With a nanofiltration
    unit that has a [get_costing] method under ['ZO'] and the reverse osmosis
    under ['Sep'], the [NotImplementedError] of the second section is raised
    after [get_costing] has been called on the nanofiltration unit, and that
    is the only call made. *)
Theorem costing_stops_after_NF module kwargs m :
  costable (fs m) "NF" → kwargs !! "NF_type" = Some (PStr "ZO") →
  is_Some (fs m !! "RO") → kwargs !! "RO_type" = Some (PStr "Sep") →
  build_costing module kwargs m =
    (Raise NotImplementedError,
     Model (fs m) (log m ++ [GetCosting "NF" module []])).
Proof.
  intros Hc Hknf Hro Hkro. rewrite build_costing_cases.
  assert (is_Some (fs m !! "NF")) as Hnf by (by eapply get_path_present).
  unfold dispatched, sections. cbn [run_sections].
  assert (section_error (fs m) kwargs "NF" "NF_type" "ZO" = None) as ->
    by (apply section_error_None; auto).
  rewrite section_error_sep by done. cbn [fst snd].
  unfold variant_events. rewrite bool_decide_eq_true_2 by done.
  by rewrite app_nil_r.
Qed.

Lemma costing_stops_after_NF_witness :
  let m := Model (<["NF" := costed_unit 1 1]> (fs single_stage)) [] in
  let kwargs : gmap string pyval :=
    <["NF_type" := PStr "ZO"]> (<["RO_type" := PStr "Sep"]> ∅) in
  costable (fs m) "NF" ∧ kwargs !! "NF_type" = Some (PStr "ZO") ∧
  is_Some (fs m !! "RO") ∧ kwargs !! "RO_type" = Some (PStr "Sep") ∧
  build_costing "financials" kwargs m =
    (Raise NotImplementedError,
     Model (fs m) (log m ++ [GetCosting "NF" "financials" []])).
Proof.
  assert (is_Some (fs (Model (<["NF" := costed_unit 1 1]> (fs single_stage)) []) !! "RO"))
    as Hro by (by eexists).
  assert (costable (fs (Model (<["NF" := costed_unit 1 1]> (fs single_stage)) [])) "NF")
    as Hc by reflexivity.
  split; [exact Hc|]. split; [reflexivity|]. split; [exact Hro|].
  split; [reflexivity|].
  exact (costing_stops_after_NF "financials"
           (<["NF_type" := PStr "ZO"]> (<["RO_type" := PStr "Sep"]> ∅))
           (Model (<["NF" := costed_unit 1 1]> (fs single_stage)) [])
           Hc eq_refl Hro eq_refl).
Defined.

Lemma section_error_absent f kwargs u key known :
  f !! u = None → section_error f kwargs u key known = None.
Proof. intros H. apply section_error_None. by left. Qed.

Lemma present_error_None f u :
  present_error f u = None ↔ (is_Some (f !! u) → costable f u).
Proof.
  unfold present_error. case_bool_decide as Hu.
  - rewrite get_costing_error_None. split; [auto|]. intros H. by apply H.
  - split; [|done]. intros _ ?. done.
Qed.

(** X15: the selectors are read only for units that are on the flowsheet.
    Without nanofiltration and without first-stage reverse osmosis the
    dispatcher does the same whatever [kwargs] holds, even nothing: it never
    raises for a selector, and it returns normally exactly when each of the
    five other units that is on the flowsheet has a [get_costing] method. *)
Theorem selectors_unread_without_units module kwargs m :
  fs m !! "NF" = None → fs m !! "RO" = None →
  build_costing module kwargs m = build_costing module ∅ m ∧
  ((build_costing module kwargs m).1 = Ok () ↔
   ∀ u, u ∈ ["pump_RO"; "pump_RO2"; "RO2";
             "stoich_softening_mixer_unit"; "ideal_naocl_mixer_unit"] →
        is_Some (fs m !! u) → costable (fs m) u).
Proof.
  intros Hnf Hro. split.
  - rewrite !build_costing_cases. unfold sections, variant_events.
    rewrite !section_error_absent by done.
    rewrite !(bool_decide_eq_false_2 (is_Some (fs m !! "NF") ∧ _))
      by (rewrite Hnf; by intros [[? ?] ?]).
    rewrite !(bool_decide_eq_false_2 (is_Some (fs m !! "RO") ∧ _))
      by (rewrite Hro; by intros [[? ?] ?]).
    done.
  - rewrite build_costing_cases. unfold dispatched. cbn [fst].
    rewrite run_sections_error.
    destruct (dispatch_error (fs m) kwargs) as [e|] eqn:Herr.
    + split; [done|]. intros Hall.
      assert (dispatch_error (fs m) kwargs = None) as Hnone; [|congruence].
      apply dispatch_error_None.
      rewrite !section_error_absent by done.
      split_and!; try done; apply present_error_None, Hall; by repeat constructor.
    + split; [|done]. intros _ u Hu.
      apply dispatch_error_None in Herr as (_ & _ & H1 & H2 & H3 & H4 & H5).
      repeat (apply elem_of_cons in Hu as [-> | Hu]; [by apply present_error_None|]).
      by apply elem_of_nil in Hu.
Qed.

Lemma selectors_unread_without_units_witness :
  let m := Model (<["pump_RO" := costed_unit 1 1]> ∅) [] in
  let kwargs : gmap string pyval := <["has_bypass" := PBool true]> ∅ in
  fs m !! "NF" = None ∧ fs m !! "RO" = None ∧
  build_costing "financials" kwargs m = build_costing "financials" ∅ m ∧
  ((build_costing "financials" kwargs m).1 = Ok () ↔
   ∀ u, u ∈ ["pump_RO"; "pump_RO2"; "RO2";
             "stoich_softening_mixer_unit"; "ideal_naocl_mixer_unit"] →
        is_Some (fs m !! u) → costable (fs m) u).
Proof.
  split; [reflexivity|]. split; [reflexivity|].
  apply (selectors_unread_without_units "financials"
           (<["has_bypass" := PBool true]> ∅)
           (Model (<["pump_RO" := costed_unit 1 1]> ∅) [])); reflexivity.
Defined.

(** ** costing.py: the report, once more *)

Lemma backfill_all_present f u :
  u = "pump_RO2" ∨ u = "NF" ∨ u = "RO2" → is_Some (backfill_all f !! u).
Proof.
  intros Hu. unfold backfill_all.
  assert (∀ g v, is_Some (backfilled v g !! v)) as Hself.
  { intros g v. unfold backfilled. case_bool_decide; [done|].
    rewrite lookup_insert_eq. eauto. }
  assert (∀ g v w, is_Some (g !! w) → is_Some (backfilled v g !! w)) as Hkeep.
  { intros g v w [c Hc]. exists c. by apply backfilled_lookup_Some. }
  destruct Hu as [-> | [-> | ->]]; auto.
Qed.

Lemma backfill_all_idempotent f : backfill_all (backfill_all f) = backfill_all f.
Proof.
  unfold backfill_all at 1.
  rewrite (backfilled_present "pump_RO2") by (apply backfill_all_present; auto).
  rewrite (backfilled_present "NF") by (apply backfill_all_present; auto).
  by rewrite (backfilled_present "RO2") by (apply backfill_all_present; auto).
Qed.

Lemma backfilled_events_present u f :
  is_Some (f !! u) → backfilled_events u f = [].
Proof. intros H. unfold backfilled_events. by rewrite bool_decide_eq_true_2. Qed.

Lemma backfill_all_events_idempotent f : backfill_all_events (backfill_all f) = [].
Proof.
  unfold backfill_all_events.
  rewrite (backfilled_events_present "pump_RO2") by (apply backfill_all_present; auto).
  rewrite (backfilled_present "pump_RO2") by (apply backfill_all_present; auto).
  rewrite (backfilled_events_present "NF") by (apply backfill_all_present; auto).
  rewrite (backfilled_present "NF") by (apply backfill_all_present; auto).
  by rewrite (backfilled_events_present "RO2") by (apply backfill_all_present; auto).
Qed.

(** The three backfills in a row. *)
Lemma backfills_run {A} (k : M A) m :
  (backfill "pump_RO2" ≫= λ _, backfill "NF" ≫= λ _, backfill "RO2" ≫= λ _, k) m =
  k (Model (backfill_all (fs m)) (log m ++ backfill_all_events (fs m))).
Proof.
  do 3 (erewrite bind_ok; [|apply backfill_run]; cbn [fs log]).
  unfold backfill_all, backfill_all_events. by rewrite <- !app_assoc.
Qed.

(** The report proper on a flowsheet where every cost it reads is a number and
    the water production is not zero. *)
Lemma report_run k p2 nf r2 lime chlorination m :
  stage1_costed (fs m) k → optional_costed (fs m) p2 nf r2 →
  Qeq_bool (annual_water_production k) 0 = false →
  mixer_state (fs m) "stoich_softening_mixer_unit" lime →
  mixer_state (fs m) "ideal_naocl_mixer_unit" chlorination →
  report (Num (crf k)) m =
    (Ok (),
     Model (fs m)
       (log m ++ (Emit <$> full_report k p2 nf r2
                           ++ mixer_lines "Lime Softening" k lime
                           ++ mixer_lines "Chlorination" k chlorination))).
Proof.
  intros (Hcrf & Hlcow & Hinv & Hcap & Hopx & Hmlc & Hawp & Hp1 & Hr1)
    (Hp2 & Hnf & Hr2) Hnz Hlime Hchl.
  unfold report.
  erewrite bind_ok; [|by eapply cost_dict_run]. cbn zeta.
  erewrite bind_ok; cycle 1.
  { apply print_items_run.
    repeat (econstructor;
            [cbn [value eval snd]; rewrite ?div_nonzero by done; reflexivity|]).
    constructor. }
  cbn [fs log zip_with fst].
  do 3 report_step.
  report_step. rewrite bool_decide_eq_true_2 by (by eapply get_path_present). cbn [when].
  erewrite bind_ok; cycle 1.
  { erewrite bind_ok; [|by eapply specific_run]. reflexivity. }
  cbn [fs log].
  report_step. rewrite bool_decide_eq_true_2 by (by eapply get_path_present). cbn [when].
  erewrite bind_ok; cycle 1.
  { erewrite bind_ok; [|by eapply specific_run]. reflexivity. }
  cbn [fs log].
  erewrite bind_ok; [|by eapply mixer_report_run]. cbn [fs log].
  erewrite mixer_report_run by done. cbn [fs log].
  f_equal. f_equal. rewrite !fmap_app, <- !app_assoc. done.
Qed.

(** A complete run of [display_costing], whichever of the optional units were
    there before. *)
Lemma display_costing_run k p2 nf r2 lime chlorination m :
  stage1_costed (fs m) k → optional_costed (backfill_all (fs m)) p2 nf r2 →
  Qeq_bool (annual_water_production k) 0 = false →
  mixer_state (fs m) "stoich_softening_mixer_unit" lime →
  mixer_state (fs m) "ideal_naocl_mixer_unit" chlorination →
  display_costing m =
    (Ok (),
     Model (backfill_all (fs m))
       (log m ++ backfill_all_events (fs m)
              ++ (Emit <$> full_report k p2 nf r2
                           ++ mixer_lines "Lime Softening" k lime
                           ++ mixer_lines "Chlorination" k chlorination))).
Proof.
  intros Hk Hopt Hnz Hlime Hchl. unfold display_costing.
  pose proof Hk as (Hcrf & _).
  erewrite bind_ok; [|by rewrite rd_run, Hcrf].
  rewrite backfills_run.
  assert (∀ path, (∃ a rest, path = a :: rest ∧ a ≠ "RO2" ∧ a ≠ "NF" ∧ a ≠ "pump_RO2") →
            get_path (backfill_all (fs m)) path = get_path (fs m) path) as Hsame.
  { intros path (a & rest & -> & ? & ? & ?). unfold backfill_all, backfilled.
    repeat case_bool_decide; by rewrite ?get_path_insert_ne. }
  assert (∀ u s, u ≠ "RO2" → u ≠ "NF" → u ≠ "pump_RO2" →
            mixer_state (fs m) u s → mixer_state (backfill_all (fs m)) u s) as Hmix.
  { intros u s ? ? ? Hs. unfold backfill_all, backfilled.
    repeat case_bool_decide; by repeat apply mixer_state_insert_ne. }
  rewrite report_run with (p2 := p2) (nf := nf) (r2 := r2)
                          (lime := lime) (chlorination := chlorination).
  - cbn [fs log]. by rewrite <- !app_assoc.
  - destruct Hk as (? & ? & ? & ? & ? & ? & ? & ? & ?).
    unfold stage1_costed. cbn [fs].
    rewrite !Hsame by (eexists _, _; by split_and!). by split_and!.
  - done.
  - done.
  - cbn [fs]. by apply Hmix.
  - cbn [fs]. by apply Hmix.
Qed.

Lemma get_path_backfill_all f path :
  (∃ a rest, path = a :: rest ∧ a ≠ "RO2" ∧ a ≠ "NF" ∧ a ≠ "pump_RO2") →
  get_path (backfill_all f) path = get_path f path.
Proof.
  intros (a & rest & -> & ? & ? & ?). unfold backfill_all, backfilled.
  repeat case_bool_decide; by rewrite ?get_path_insert_ne.
Qed.

Lemma stage1_costed_backfill_all f k :
  stage1_costed f k → stage1_costed (backfill_all f) k.
Proof.
  unfold stage1_costed.
  rewrite !get_path_backfill_all by (eexists _, _; by split_and!). done.
Qed.

Lemma mixer_state_backfill_all f u s :
  u ≠ "RO2" → u ≠ "NF" → u ≠ "pump_RO2" →
  mixer_state f u s → mixer_state (backfill_all f) u s.
Proof.
  intros ? ? ? Hs. unfold backfill_all, backfilled.
  repeat case_bool_decide; by repeat apply mixer_state_insert_ne.
Qed.

Lemma optional_costed_present f p2 nf r2 :
  optional_costed f p2 nf r2 → backfill_all f = f ∧ backfill_all_events f = [].
Proof.
  intros (Hp2%get_path_present & Hnf%get_path_present & Hr2%get_path_present).
  unfold backfill_all, backfill_all_events.
  rewrite (backfilled_present "pump_RO2"), (backfilled_events_present "pump_RO2") by done.
  rewrite (backfilled_present "NF"), (backfilled_events_present "NF") by done.
  by rewrite (backfilled_present "RO2"), (backfilled_events_present "RO2") by done.
Qed.

(** X16: on a flowsheet where the first stage, the second stage and the
    nanofiltration all carry an operating cost, the system costs are in place
    and the water production is not zero, [display_costing] attaches nothing:
    it leaves the flowsheet as it is and writes the sixteen lines of the
    layout with the costs it read, followed by the two lines of each mixer
    that is there. *)
Theorem report_on_costed_flowsheet m k p2 nf r2 lime chlorination :
  stage1_costed (fs m) k → optional_costed (fs m) p2 nf r2 →
  Qeq_bool (annual_water_production k) 0 = false →
  mixer_state (fs m) "stoich_softening_mixer_unit" lime →
  mixer_state (fs m) "ideal_naocl_mixer_unit" chlorination →
  display_costing m =
    (Ok (),
     Model (fs m)
       (log m ++ (Emit <$> full_report k p2 nf r2
                           ++ mixer_lines "Lime Softening" k lime
                           ++ mixer_lines "Chlorination" k chlorination))).
Proof.
  intros Hk Hopt Hnz Hlime Hchl.
  destruct (optional_costed_present _ _ _ _ Hopt) as [Hfs Hevs].
  rewrite (display_costing_run k p2 nf r2 lime chlorination);
    [|done|by rewrite Hfs|done..].
  by rewrite Hfs, Hevs.
Qed.

Lemma report_on_costed_flowsheet_witness :
  stage1_costed (fs two_stage) single_stage_readings ∧
  optional_costed (fs two_stage) 5 2 4 ∧
  Qeq_bool (annual_water_production single_stage_readings) 0 = false ∧
  mixer_state (fs two_stage) "stoich_softening_mixer_unit" None ∧
  mixer_state (fs two_stage) "ideal_naocl_mixer_unit" (Some (8, 6)%Q) ∧
  display_costing two_stage =
    (Ok (),
     Model (fs two_stage)
       (log two_stage
        ++ (Emit <$> full_report single_stage_readings 5 2 4
                     ++ mixer_lines "Lime Softening" single_stage_readings None
                     ++ mixer_lines "Chlorination" single_stage_readings
                          (Some (8, 6)%Q)))).
Proof.
  assert (stage1_costed (fs two_stage) single_stage_readings) as Hk
    by (unfold stage1_costed; split_and!; reflexivity).
  assert (optional_costed (fs two_stage) 5 2 4) as Hopt
    by (unfold optional_costed; split_and!; reflexivity).
  assert (mixer_state (fs two_stage) "ideal_naocl_mixer_unit" (Some (8, 6)%Q)) as Hchl
    by (split; reflexivity).
  split; [exact Hk|]. split; [exact Hopt|]. split; [reflexivity|].
  split; [reflexivity|]. split; [exact Hchl|].
  exact (report_on_costed_flowsheet two_stage single_stage_readings 5 2 4
           None (Some (8, 6)%Q) Hk Hopt eq_refl eq_refl Hchl).
Defined.

Lemma emitted_Emit lines : emitted (Emit <$> lines) = lines.
Proof.
  induction lines as [|x lines IH]; [done|]. cbn. f_equal. exact IH.
Qed.

(** X17: a report can be repeated.  After a run that completed, a second run
    attaches nothing more, leaves the flowsheet as the first run left it, and
    writes the same lines again. *)
Theorem report_repeatable m k p2 nf r2 lime chlorination :
  stage1_costed (fs m) k → optional_costed (backfill_all (fs m)) p2 nf r2 →
  Qeq_bool (annual_water_production k) 0 = false →
  mixer_state (fs m) "stoich_softening_mixer_unit" lime →
  mixer_state (fs m) "ideal_naocl_mixer_unit" chlorination →
  let lines := full_report k p2 nf r2
               ++ mixer_lines "Lime Softening" k lime
               ++ mixer_lines "Chlorination" k chlorination in
  let m1 := (display_costing m).2 in
  (display_costing m).1 = Ok () ∧
  emitted (drop (length (log m)) (log m1)) = lines ∧
  display_costing m1 = (Ok (), Model (fs m1) (log m1 ++ (Emit <$> lines))).
Proof.
  intros Hk Hopt Hnz Hlime Hchl. cbn zeta.
  rewrite (display_costing_run k p2 nf r2 lime chlorination) by done.
  cbn [fst snd fs log]. split; [done|]. split.
  - rewrite drop_app_length, emitted_app.
    unfold backfill_all_events.
    rewrite !emitted_app, !emitted_backfilled_events. cbn [app].
    apply emitted_Emit.
  - rewrite (display_costing_run k p2 nf r2 lime chlorination); cbn [fs log].
    + by rewrite backfill_all_idempotent, backfill_all_events_idempotent.
    + by apply stage1_costed_backfill_all.
    + by rewrite backfill_all_idempotent.
    + done.
    + by apply mixer_state_backfill_all.
    + by apply mixer_state_backfill_all.
Qed.

Lemma report_repeatable_witness :
  stage1_costed (fs single_stage) single_stage_readings ∧
  optional_costed (backfill_all (fs single_stage)) 0 0 0 ∧
  Qeq_bool (annual_water_production single_stage_readings) 0 = false ∧
  mixer_state (fs single_stage) "stoich_softening_mixer_unit" None ∧
  mixer_state (fs single_stage) "ideal_naocl_mixer_unit" None ∧
  let lines := full_report single_stage_readings 0 0 0
               ++ mixer_lines "Lime Softening" single_stage_readings None
               ++ mixer_lines "Chlorination" single_stage_readings None in
  let m1 := (display_costing single_stage).2 in
  (display_costing single_stage).1 = Ok () ∧
  emitted (drop (length (log single_stage)) (log m1)) = lines ∧
  display_costing m1 = (Ok (), Model (fs m1) (log m1 ++ (Emit <$> lines))).
Proof.
  assert (stage1_costed (fs single_stage) single_stage_readings) as Hk
    by (unfold stage1_costed; split_and!; reflexivity).
  assert (optional_costed (backfill_all (fs single_stage)) 0 0 0) as Hopt
    by (unfold optional_costed; split_and!; reflexivity).
  split; [exact Hk|]. split; [exact Hopt|]. split; [reflexivity|].
  split; [reflexivity|]. split; [reflexivity|].
  exact (report_repeatable single_stage single_stage_readings 0 0 0 None None
           Hk Hopt eq_refl eq_refl eq_refl).
Defined.

(** X18: a zero water production ends the report in [ZeroDivisionError],
    after the placeholders have been attached and before any line that
    involves the water production is written: at most the first line, the
    [LCOW] that needs no division, has been printed.  (Whether the division
    is attempted when the dictionary is built or when its values are printed
    depends on the kind of component that holds the water production; the
    embedding evaluates a quotient when it is printed.) *)
Theorem report_zero_production m k p2 nf r2 :
  stage1_costed (fs m) k → optional_costed (backfill_all (fs m)) p2 nf r2 →
  Qeq_bool (annual_water_production k) 0 = true →
  ∃ evs,
    display_costing m =
      (Raise ZeroDivisionError,
       Model (backfill_all (fs m)) (log m ++ backfill_all_events (fs m) ++ evs)) ∧
    emitted (backfill_all_events (fs m) ++ evs) `prefix_of` [Line "LCOW" (LCOW k)].
Proof.
  intros Hk (Hp2 & Hnf & Hr2) Hz. exists [Emit (Line "LCOW" (LCOW k))]. split.
  - unfold display_costing.
    pose proof Hk as (Hcrf & _).
    erewrite bind_ok; [|by rewrite rd_run, Hcrf].
    rewrite backfills_run. unfold report.
    apply stage1_costed_backfill_all in Hk
      as (_ & Hlcow & Hinv & Hcap & Hopx & Hmlc & Hawp & Hp1 & Hr1).
    erewrite bind_ok; [|by eapply cost_dict_run]. cbn zeta.
    erewrite bind_raise; cycle 1.
    { cbn [print_items].
      erewrite bind_ok; [|reflexivity].
      erewrite bind_ok; [|reflexivity].
      apply bind_raise. unfold lift. cbn [value eval]. unfold div. by rewrite Hz. }
    cbn [fs log]. by rewrite <- !app_assoc.
  - unfold backfill_all_events.
    by rewrite !emitted_app, !emitted_backfilled_events.
Qed.

Lemma report_zero_production_witness :
  let m := Model (<["annual_water_production" := Num 0]> (fs single_stage)) [] in
  let k := Readings 0.1 0.5 200 100 30 3 0 20 10 in
  stage1_costed (fs m) k ∧ optional_costed (backfill_all (fs m)) 0 0 0 ∧
  Qeq_bool (annual_water_production k) 0 = true ∧
  ∃ evs,
    display_costing m =
      (Raise ZeroDivisionError,
       Model (backfill_all (fs m)) (log m ++ backfill_all_events (fs m) ++ evs)) ∧
    emitted (backfill_all_events (fs m) ++ evs) `prefix_of` [Line "LCOW" (LCOW k)].
Proof.
  assert (stage1_costed
            (fs (Model (<["annual_water_production" := Num 0]> (fs single_stage)) []))
            (Readings 0.1 0.5 200 100 30 3 0 20 10)) as Hk
    by (unfold stage1_costed; split_and!; reflexivity).
  assert (optional_costed
            (backfill_all
               (fs (Model (<["annual_water_production" := Num 0]> (fs single_stage)) [])))
            0 0 0) as Hopt
    by (unfold optional_costed; split_and!; reflexivity).
  split; [exact Hk|]. split; [exact Hopt|]. split; [reflexivity|].
  exact (report_zero_production _ _ 0 0 0 Hk Hopt eq_refl).
Defined.

(** X19: asked for a report before the system costs exist, [display_costing]
    raises [AttributeError] without writing a line; if the capital-recovery
    factor could be read, the three placeholders have nevertheless been
    attached by then. *)
Theorem report_before_costing m :
  fs m !! "costing" = None →
  ∃ m' evs,
    display_costing m = (Raise AttributeError, m') ∧
    log m' = log m ++ evs ∧ emitted evs = [] ∧
    fs m' =
      match get_path (fs m) ["costing_param"; "factor_capital_annualization"] with
      | Ok _ => backfill_all (fs m)
      | Raise _ => fs m
      end.
Proof.
  intros Habs. unfold display_costing.
  destruct (get_path (fs m) ["costing_param"; "factor_capital_annualization"])
    as [c|e] eqn:Hc.
  - erewrite bind_ok; [|by rewrite rd_run, Hc].
    rewrite backfills_run. unfold report, cost_dict.
    erewrite bind_raise; cycle 1.
    { apply bind_raise. apply rdo_absent. cbn [fs].
      by rewrite backfill_all_lookup_ne. }
    eexists _, _. split; [done|]. cbn [fs log]. split; [done|]. split; [|done].
    unfold backfill_all_events. by rewrite !emitted_app, !emitted_backfilled_events.
  - apply get_path_raise in Hc as Heq. subst e.
    erewrite bind_raise; [|by rewrite rd_run, Hc].
    exists m, []. by rewrite app_nil_r.
Qed.

Lemma report_before_costing_witness :
  let m := Model (delete "costing" (fs single_stage)) [] in
  fs m !! "costing" = None ∧
  ∃ m' evs,
    display_costing m = (Raise AttributeError, m') ∧
    log m' = log m ++ evs ∧ emitted evs = [] ∧
    fs m' =
      match get_path (fs m) ["costing_param"; "factor_capital_annualization"] with
      | Ok _ => backfill_all (fs m)
      | Raise _ => fs m
      end.
Proof.
  split; [reflexivity|].
  apply (report_before_costing (Model (delete "costing" (fs single_stage)) [])).
  reflexivity.
Defined.

Lemma selected_costable f kwargs u :
  (∀ row, row ∈ costing_table → selected f kwargs row.1 = true → costable f row.1) →
  u ∈ costing_table.*1 → selected f kwargs u = true → costable f u.
Proof.
  intros Hall Hu Hsel. apply list_elem_of_fmap in Hu as ([u' kw] & -> & Hrow).
  by apply (Hall _ Hrow).
Qed.

(** X20: the placeholders of a report are found by the dispatcher.  On a
    flowsheet without nanofiltration, whose units to be costed all have a
    [get_costing] method, the dispatcher returns normally without an
    [NF_type] selector; once [display_costing] has run on that flowsheet,
    the same call raises [KeyError], because the nanofiltration placeholder
    is now on the flowsheet. *)
Theorem dispatcher_finds_placeholder module kwargs m c :
  fs m !! "NF" = None → kwargs !! "NF_type" = None →
  section_passes (fs m) kwargs "RO" "RO_type" →
  (∀ row, row ∈ costing_table →
          selected (fs m) kwargs row.1 = true → costable (fs m) row.1) →
  get_path (fs m) ["costing_param"; "factor_capital_annualization"] = Ok c →
  (build_costing module kwargs m).1 = Ok () ∧
  (build_costing module kwargs (display_costing m).2).1 = Raise KeyError.
Proof.
  intros Hnf Hk Hro Hall Hc. split.
  - rewrite build_costing_cases. unfold dispatched. cbn [fst].
    rewrite run_sections_error.
    assert (dispatch_error (fs m) kwargs = None) as ->; [|done].
    assert (∀ u, u ∈ costing_table.*1 → u ≠ "NF" → u ≠ "RO" →
                 present_error (fs m) u = None) as Hother.
    { intros u Hu ? ?. apply present_error_None. intros Hpres.
      apply (selected_costable _ kwargs); [done..|].
      rewrite selected_other by done. by apply bool_decide_eq_true_2. }
    apply dispatch_error_None. split_and!.
    + by apply section_error_absent.
    + apply section_error_None.
      destruct Hro as [Habs | (v & Hv & Hsep)]; [by left|].
      destruct (fs m !! "RO") as [ro|] eqn:Hpres; [|by left]. right.
      destruct (decide (v = PStr "0D")) as [-> | Hne]; [left | right; eauto].
      split; [done|]. apply (selected_costable _ kwargs); [done|by repeat constructor|].
      rewrite selected_RO. apply bool_decide_eq_true_2. split; [by rewrite Hpres|done].
    + apply Hother; [by repeat constructor|done..].
    + apply Hother; [by repeat constructor|done..].
    + apply Hother; [by repeat constructor|done..].
    + apply Hother; [by repeat constructor|done..].
    + apply Hother; [by repeat constructor|done..].
  - rewrite build_costing_cases. unfold dispatched. cbn [fst].
    rewrite run_sections_error. unfold dispatch_error, section_error at 1.
    rewrite display_costing_fs, Hc.
    rewrite bool_decide_eq_true_2 by (apply backfill_all_present; auto).
    by rewrite Hk.
Qed.

Lemma dispatcher_finds_placeholder_witness :
  let kwargs : gmap string pyval := <["RO_type" := PStr "0D"]> ∅ in
  fs single_stage !! "NF" = None ∧ kwargs !! "NF_type" = None ∧
  section_passes (fs single_stage) kwargs "RO" "RO_type" ∧
  (∀ row, row ∈ costing_table →
          selected (fs single_stage) kwargs row.1 = true →
          costable (fs single_stage) row.1) ∧
  get_path (fs single_stage) ["costing_param"; "factor_capital_annualization"]
    = Ok (Num 0.1) ∧
  (build_costing "financials" kwargs single_stage).1 = Ok () ∧
  (build_costing "financials" kwargs (display_costing single_stage).2).1
    = Raise KeyError.
Proof.
  assert (section_passes (fs single_stage) (<["RO_type" := PStr "0D"]> ∅)
            "RO" "RO_type") as Hro.
  { right. exists (PStr "0D"). by split. }
  assert (∀ row, row ∈ costing_table →
            selected (fs single_stage) (<["RO_type" := PStr "0D"]> ∅) row.1 = true →
            costable (fs single_stage) row.1) as Hall.
  { intros row Hrow. unfold costing_table in Hrow.
    repeat (apply elem_of_cons in Hrow as [-> | Hrow]; [by vm_compute|]).
    by apply elem_of_nil in Hrow. }
  split; [reflexivity|]. split; [reflexivity|]. split; [exact Hro|].
  split; [exact Hall|]. split; [reflexivity|].
  exact (dispatcher_finds_placeholder "financials" (<["RO_type" := PStr "0D"]> ∅)
           single_stage (Num 0.1) eq_refl eq_refl Hro Hall eq_refl).
Defined.

(** *** Which calls *)

Lemma calls_ret {A} ok (a : A) : calls_only ok (mret a).
Proof. intros m. exists []. by rewrite app_nil_r. Qed.

Lemma calls_raise {A} ok e : calls_only ok (raise e : M A).
Proof. intros m. exists []. by rewrite app_nil_r. Qed.

Lemma calls_lift {A} ok (r : result A) : calls_only ok (lift r).
Proof. intros m. exists []. by rewrite app_nil_r. Qed.

Lemma calls_rd ok path : calls_only ok (rd path).
Proof. intros m. exists []. by rewrite app_nil_r. Qed.

Lemma calls_hasattr ok u : calls_only ok (hasattr u).
Proof. intros m. exists []. by rewrite app_nil_r. Qed.

Lemma calls_call (ok : event → bool) ev : ok ev = true → calls_only ok (call ev).
Proof. intros Hev m. exists [ev]. cbn. by rewrite Hev. Qed.

Lemma calls_assign (ok : event → bool) path c :
  ok (Assign path c) = true → calls_only ok (assign path c).
Proof.
  intros Hev m. unfold assign. destruct (set_path (fs m) path c).
  - exists [Assign path c]. cbn. by rewrite Hev.
  - exists []. by rewrite app_nil_r.
Qed.

Lemma calls_bind {A B} ok (c : M A) (f : A → M B) :
  calls_only ok c → (∀ a, calls_only ok (f a)) → calls_only ok (c ≫= f).
Proof.
  intros Hc Hf m. unfold mbind, M_bind.
  destruct (Hc m) as (evs1 & Hlog1 & Hok1).
  destruct (c m) as [[a|e] m1]; cbn [snd] in *.
  - destruct (Hf a m1) as (evs2 & Hlog2 & Hok2).
    exists (evs1 ++ evs2). rewrite Hlog2, Hlog1, app_assoc. split; [done|].
    by rewrite forallb_app, Hok1, Hok2.
  - by exists evs1.
Qed.

Lemma calls_when ok b c : calls_only ok c → calls_only ok (when b c).
Proof. destruct b; [done | intros _; apply calls_ret]. Qed.

Ltac calls :=
  repeat first
    [ apply calls_bind; [ | intros ? ]
    | apply calls_ret
    | apply calls_raise
    | apply calls_lift
    | apply calls_rd
    | apply calls_hasattr
    | apply calls_when
    | apply calls_call; reflexivity
    | apply calls_assign; reflexivity
    | match goal with
      | |- calls_only _ (if ?b then _ else _) => destruct b
      | |- calls_only _ (match ?x with _ => _ end) => destruct x
      end ].

Lemma calls_print_items items : calls_only is_assign_or_emit (print_items items).
Proof.
  induction items as [|[item val] rest IH]; cbn [print_items]; calls. exact IH.
Qed.

Lemma calls_backfill u : calls_only is_assign_or_emit (backfill u).
Proof. unfold backfill. calls. Qed.

Lemma calls_cost_dict crf : calls_only is_assign_or_emit (cost_dict crf).
Proof. unfold cost_dict, rdo, binop. calls. Qed.

Lemma calls_specific u attr : calls_only is_assign_or_emit (specific u attr).
Proof. unfold specific. calls. Qed.

Lemma calls_mixer_report u label crf :
  calls_only is_assign_or_emit (mixer_report u label crf).
Proof.
  unfold mixer_report.
  apply calls_bind; [apply calls_hasattr | intros present].
  apply calls_when.
  apply calls_bind; [apply calls_specific | intros x].
  apply calls_bind; [apply calls_lift | intros k].
  apply calls_bind; [apply calls_specific | intros y].
  apply calls_bind; [by apply calls_call | intros _].
  by apply calls_call.
Qed.

Lemma calls_report crf : calls_only is_assign_or_emit (report crf).
Proof.
  unfold report.
  apply calls_bind; [apply calls_cost_dict | intros items].
  apply calls_bind; [apply calls_print_items | intros _].
  apply calls_bind; [apply calls_rd | intros c].
  apply calls_bind; [apply calls_lift | intros lcow].
  apply calls_bind; [by apply calls_call | intros _].
  apply calls_bind; [apply calls_hasattr | intros p1].
  apply calls_bind.
  { apply calls_when.
    apply calls_bind; [apply calls_specific | intros x]. by apply calls_call. }
  intros _.
  apply calls_bind; [apply calls_hasattr | intros p2].
  apply calls_bind.
  { apply calls_when.
    apply calls_bind; [apply calls_specific | intros x]. by apply calls_call. }
  intros _.
  apply calls_bind; [apply calls_mixer_report | intros _].
  apply calls_mixer_report.
Qed.

(** X22: the two functions of the costing file keep to their own work.  The
    report only attaches components and prints: it never calls a costing
    routine.  The dispatcher only calls costing routines: it attaches
    nothing itself and prints nothing.  Both hold on every run, completed or
    not. *)
Theorem costing_file_separation module kwargs :
  calls_only is_assign_or_emit display_costing ∧
  calls_only is_costing_call (build_costing module kwargs).
Proof.
  split.
  - unfold display_costing.
    apply calls_bind; [apply calls_rd | intros crf].
    do 3 (apply calls_bind; [apply calls_backfill | intros _]).
    apply calls_report.
  - unfold build_costing, costing_NF, costing_RO, costing_if_present,
      get_costing, on_unit, kwarg.
    calls.
Qed.
